(** * HR management system: leave workflow and request pipeline

    A shallow embedding of the Go sources

      - internal/leave/models.go      (day count, balance arithmetic)
      - internal/leave/repository.go  (Update, ApproveLeave, RejectLeave)
      - internal/middleware (auth)    (AuthFunc, SkipAuth, UnaryAuthInterceptor)
      - internal/middleware/logging.go (RecoveryInterceptor, getRequestID)

    followed by the properties of the specification, each proved or
    refuted on the embedding. *)

From Stdlib Require Import ZArith Lia Bool List.
From Stdlib Require Import Floats.PrimFloat Floats.FloatOps Floats.SpecFloat.
From Stdlib Require Import Numbers.Cyclic.Int63.Uint63.
From stdpp Require Import base option strings list gmap.

Local Open Scope Z_scope.

(* ===================================================================== *)
(** ** The Go runtime: machine integers, time and float64                *)
(* ===================================================================== *)

Module Go.

(** [int] and [int64] are 64-bit two's complement on the platforms the
    server is built for; arithmetic wraps around. *)
Definition min_int64 : Z := -9223372036854775808.      (* -2^63 *)
Definition max_int64 : Z := 9223372036854775807.       (* 2^63 - 1 *)

Definition wrap64 (z : Z) : Z :=
  (z + 9223372036854775808) mod 18446744073709551616 - 9223372036854775808.

Definition int_add (a b : Z) : Z := wrap64 (a + b).
Definition int_sub (a b : Z) : Z := wrap64 (a - b).

Definition in_int64 (z : Z) : Prop := min_int64 <= z <= max_int64.

(** The builtin [max] on two ints. *)
Definition max (a b : Z) : Z := if a <? b then b else a.

(** *** time.Duration and time.Time

    A [Duration] is an int64 count of nanoseconds.  A [Time] is an instant,
    represented by the nanoseconds elapsed since the zero Time
    (January 1, year 1, 00:00:00 UTC); every Time is read in UTC. *)
Definition Duration := Z.
Definition Time := Z.

Definition Nanosecond : Duration := 1.
Definition Second : Duration := 1000000000 * Nanosecond.
Definition Minute : Duration := 60 * Second.
Definition Hour : Duration := 60 * Minute.

Definition minDuration : Duration := min_int64.
Definition maxDuration : Duration := max_int64.

Definition IsZero (t : Time) : bool := t =? 0.

(** [t.Sub(u)]: the duration t-u; when it does not fit a Duration the
    maximum (or minimum) duration is returned. *)
Definition Sub (t u : Time) : Duration :=
  let d := t - u in
  if d <? minDuration then minDuration
  else if maxDuration <? d then maxDuration
  else d.

(** Calendar arithmetic of the proleptic Gregorian calendar, on day numbers
    counted from January 1 of year 1. *)
Definition nanos_per_day : Z := 24 * Hour.

Definition days_from_civil (y m d : Z) : Z :=
  let y' := if m <=? 2 then y - 1 else y in
  let era := y' / 400 in
  let yoe := y' - era * 400 in
  let doy := (153 * (if 2 <? m then m - 3 else m + 9) + 2) / 5 + d - 1 in
  let doe := yoe * 365 + yoe / 4 - yoe / 100 + doy in
  era * 146097 + doe - 306.

Definition year_of_days (z : Z) : Z :=
  let z' := z + 306 in
  let era := z' / 146097 in
  let doe := z' - era * 146097 in
  let yoe := (doe - doe / 1460 + doe / 36524 - doe / 146096) / 365 in
  let doy := doe - (365 * yoe + yoe / 4 - yoe / 100) in
  let mp := (5 * doy + 2) / 153 in
  let m := if mp <? 10 then mp + 3 else mp - 9 in
  yoe + era * 400 + (if m <=? 2 then 1 else 0).

(** [time.Date(y, m, d, 0, 0, 0, 0, time.UTC)] *)
Definition Date (y m d : Z) : Time := days_from_civil y m d * nanos_per_day.

(** [t.Year()] *)
Definition Year (t : Time) : Z := year_of_days (t / nanos_per_day).

(** *** float64 *)

(** Conversion of an integer to float64 (exact below 2^53). *)
Definition float64_of_int (z : Z) : float :=
  if z <? 0 then PrimFloat.opp (PrimFloat.of_uint63 (Uint63.of_Z (- z)))
  else PrimFloat.of_uint63 (Uint63.of_Z z).

(** Conversion [int(f)] of a float64: the fraction is discarded (truncation
    towards zero).  For NaN, infinities and values outside int64 the result
    is the one amd64 produces. *)
Definition int_of_float64 (f : float) : Z :=
  match Prim2SF f with
  | S754_zero _ => 0
  | S754_finite s m e =>
      let v := match e with
               | Z0 => Zpos m
               | Zpos p => Zpos m * 2 ^ Zpos p
               | Zneg p => Z.shiftr (Zpos m) (Zpos p)
               end in
      let r := if s then - v else v in
      if (min_int64 <=? r) && (r <=? max_int64) then r else min_int64
  | _ => min_int64
  end.

(** [d.Hours()] of package time:
      hour := d / Hour; nsec := d % Hour
      return float64(hour) + float64(nsec)/(60*60*1e9) *)
Definition Hours (d : Duration) : float :=
  let hour := Z.quot d Hour in
  let nsec := Z.rem d Hour in
  PrimFloat.add (float64_of_int hour)
                (PrimFloat.div (float64_of_int nsec) (float64_of_int (60 * 60 * 1000000000))).

End Go.

(** *** Errors and dynamically typed values *)

Module Errors.

(** The gRPC status codes the services use. *)
Inductive Code :=
  OK | Unknown | InvalidArgument | NotFound | AlreadyExists
| FailedPrecondition | Unauthenticated | Internal.

(** Go [error] values; the nil error is [None] of [option error]. *)
Inductive error :=
| ErrRecordNotFound                               (* gorm.ErrRecordNotFound *)
| DriverError (msg : string)                      (* any other database failure *)
| Errorf (msg : string)                           (* fmt.Errorf without %w *)
| Wrapped (msg : string) (cause : error)          (* fmt.Errorf with %w: keeps the cause *)
| StatusError (c : Code) (msg : string).          (* status.Error(c, msg) *)

#[global] Instance Code_eq_dec : EqDecision Code.
Proof. solve_decision. Defined.

Definition Code_name (c : Code) : string :=
  match c with
  | OK => "OK" | Unknown => "Unknown" | InvalidArgument => "InvalidArgument"
  | NotFound => "NotFound" | AlreadyExists => "AlreadyExists"
  | FailedPrecondition => "FailedPrecondition"
  | Unauthenticated => "Unauthenticated" | Internal => "Internal"
  end.

(** The [Error()] method. *)
Definition Error (e : error) : string :=
  match e with
  | ErrRecordNotFound => "record not found"
  | DriverError msg => msg
  | Errorf msg => msg
  | Wrapped msg _ => msg
  | StatusError c msg => "rpc error: code = " +:+ Code_name c +:+ " desc = " +:+ msg
  end.

(** [fmt.Errorf(prefix + "%w", err)] *)
Definition Errorf_w (prefix : string) (err : error) : error :=
  Wrapped (prefix +:+ Error err) err.

(** [status.Error(c, msg)] *)
Definition status_Error (c : Code) (msg : string) : error := StatusError c msg.

(** [status.Code(err)] for a non-nil error: the code of the status error it
    is or wraps, Unknown for every other error. *)
Fixpoint status_Code (e : error) : Code :=
  match e with
  | StatusError c _ => c
  | Wrapped _ e' => status_Code e'
  | _ => Unknown
  end.

End Errors.

Module Dyn.

(** Faults raised by the runtime itself. *)
Inductive runtime_error :=
| IndexOutOfRange (index length : Z)   (* index out of range [index] with length *)
| MakeSliceLenOutOfRange               (* makeslice: len out of range *)
| PanicNilError.                       (* panic called with a nil argument *)

(** Values of interface type [any], with their dynamic type. *)
Inductive any :=
| Nil
| AString (s : string)        (* string *)
| AContextKey (s : string)    (* middleware.contextKey *)
| AInt (z : Z)                (* int *)
| ATime (t : Go.Time)         (* time.Time *)
| ATimePtr (t : Go.Time)      (* *time.Time, not nil *)
| ARuntimeError (e : runtime_error).

#[global] Instance runtime_error_eq_dec : EqDecision runtime_error.
Proof. solve_decision. Defined.
#[global] Instance any_eq_dec : EqDecision any.
Proof. solve_decision. Defined.

(** A call either returns or panics with a value. *)
Inductive Outcome (A : Type) :=
| Returned (a : A)
| Panicked (v : any).
Arguments Returned {A} a.
Arguments Panicked {A} v.

End Dyn.

(* ===================================================================== *)
(** ** internal/leave                                                    *)
(* ===================================================================== *)

Module Leave.
Import Errors Dyn.

(** *** models.go: the rows *)

(** The columns of [LeaveRequest] (receiver [lr]); the preloaded
    associations Employee and Approver are not columns of the row. *)
Record LeaveRequest := {
  lr_ID : string;
  lr_EmployeeID : string;
  lr_LeaveType : string;
  lr_StartDate : Go.Time;
  lr_EndDate : Go.Time;
  lr_DaysRequested : Z;
  lr_Reason : string;
  lr_LeaveStatus : string;
  lr_ApproverID : option string;
  lr_Comments : string;
  lr_ApprovedAt : option Go.Time;
  lr_CreatedAt : Go.Time;
  lr_UpdatedAt : Go.Time;
  lr_DeletedAt : option Go.Time
}.

(** [LeaveBalance] (receiver [lb]).  RemainingDays is tagged gorm:"-": it is
    carried by the struct but never read from or written to the table. *)
Record LeaveBalance := {
  lb_ID : string;
  lb_EmployeeID : string;
  lb_LeaveType : string;
  lb_Year : Z;
  lb_TotalDays : Z;
  lb_UsedDays : Z;
  lb_RemainingDays : Z;
  lb_CreatedAt : Go.Time;
  lb_UpdatedAt : Go.Time;
  lb_DeletedAt : option Go.Time
}.

Record CreateLeaveRequestRequest := {
  cr_EmployeeID : string;
  cr_LeaveType : string;
  cr_StartDate : Go.Time;
  cr_EndDate : Go.Time;
  cr_Reason : string
}.

Record UpdateLeaveRequestRequest := {
  ur_LeaveType : string;
  ur_StartDate : Go.Time;
  ur_EndDate : Go.Time;
  ur_Reason : string
}.

Record ApproveLeaveRequestRequest := {
  ar_ApproverID : string;
  ar_Comments : string
}.

Record RejectLeaveRequestRequest := {
  rr_ApproverID : string;
  rr_Comments : string
}.

(** *** models.go: the functions *)

Definition calculateDaysRequested (startDate endDate : Go.Time) : Z :=
  let duration := Go.Sub endDate startDate in
  let days :=
    Go.int_add (Go.int_of_float64 (PrimFloat.div (Go.Hours duration) (Go.float64_of_int 24))) 1 in
  if days <? 0 then 0 else days.

Definition FromCreateRequest (req : CreateLeaveRequestRequest) : LeaveRequest :=
  let daysRequested := calculateDaysRequested (cr_StartDate req) (cr_EndDate req) in
  {| lr_ID := "";
     lr_EmployeeID := cr_EmployeeID req;
     lr_LeaveType := cr_LeaveType req;
     lr_StartDate := cr_StartDate req;
     lr_EndDate := cr_EndDate req;
     lr_DaysRequested := daysRequested;
     lr_Reason := cr_Reason req;
     lr_LeaveStatus := "PENDING";
     lr_ApproverID := None;
     lr_Comments := "";
     lr_ApprovedAt := None;
     lr_CreatedAt := 0;
     lr_UpdatedAt := 0;
     lr_DeletedAt := None |}.

Definition ApplyUpdate (lr : LeaveRequest) (req : UpdateLeaveRequestRequest) : LeaveRequest :=
  let leaveType := if negb (String.eqb (ur_LeaveType req) "") then ur_LeaveType req
                   else lr_LeaveType lr in
  let startDate := if negb (Go.IsZero (ur_StartDate req)) then ur_StartDate req
                   else lr_StartDate lr in
  let endDate := if negb (Go.IsZero (ur_EndDate req)) then ur_EndDate req
                 else lr_EndDate lr in
  let reason := if negb (String.eqb (ur_Reason req) "") then ur_Reason req
                else lr_Reason lr in
  (* Recalculate days if dates changed *)
  let daysRequested :=
    if negb (Go.IsZero (ur_StartDate req)) || negb (Go.IsZero (ur_EndDate req))
    then calculateDaysRequested startDate endDate
    else lr_DaysRequested lr in
  {| lr_ID := lr_ID lr;
     lr_EmployeeID := lr_EmployeeID lr;
     lr_LeaveType := leaveType;
     lr_StartDate := startDate;
     lr_EndDate := endDate;
     lr_DaysRequested := daysRequested;
     lr_Reason := reason;
     lr_LeaveStatus := lr_LeaveStatus lr;
     lr_ApproverID := lr_ApproverID lr;
     lr_Comments := lr_Comments lr;
     lr_ApprovedAt := lr_ApprovedAt lr;
     lr_CreatedAt := lr_CreatedAt lr;
     lr_UpdatedAt := lr_UpdatedAt lr;
     lr_DeletedAt := lr_DeletedAt lr |}.

(** GetRemainingDays calculates and returns remaining days *)
Definition GetRemainingDays (lb : LeaveBalance) : Z :=
  let remaining := Go.int_sub (lb_TotalDays lb) (lb_UsedDays lb) in
  if remaining <? 0 then 0 else remaining.

Definition HasSufficientBalance (lb : LeaveBalance) (requestedDays : Z) : bool :=
  requestedDays <=? GetRemainingDays lb.

(** *** The database as gorm presents it

    The two tables hold the rows of the model structs, kept in primary-key
    order.  Every statement either is executed or is refused by the
    database with an error; which statements are refused, and the reading
    of the clock, are the environment of a call. *)

Record DB := {
  leaves : list LeaveRequest;            (* LeaveRequest.TableName() *)
  leave_balances : list LeaveBalance     (* LeaveBalance.TableName() *)
}.

Inductive Stmt :=
| Begin            (* BEGIN of Transaction *)
| SelectLeave      (* tx.First(&leave, "id = ?", id) *)
| UpdateLeave      (* tx.Model(&leave).Updates(...) *)
| SelectBalance    (* tx.Where(...).First(&balance) *)
| SaveBalance      (* tx.Save(&balance) *)
| Commit           (* COMMIT of Transaction *)
| UpdateFields.    (* Model(&LeaveRequest{}).Where("id = ?", id).Updates(updateData) *)

Record Env := {
  now : Go.Time;                     (* time.Now() *)
  db_error : Stmt -> option error    (* the statements the database refuses *)
}.

(** Code running against a transaction handle: it reads and writes the
    tables and may stop with an error. *)
Definition Tx (A : Type) : Type := DB -> DB * (error + A).

#[global] Instance Tx_ret : MRet Tx := fun A (a : A) db => (db, inr a).
#[global] Instance Tx_bind : MBind Tx := fun A B (f : A -> Tx B) (m : Tx A) db =>
  match m db with
  | (db', inl e) => (db', inl e)
  | (db', inr a) => f a db'
  end.

(** [return err] from the transaction function. *)
Definition fail {A} (e : error) : Tx A := fun db => (db, inl e).

(** [if err := stmt.Error; err != nil { return fmt.Errorf(prefix+"%w", err) }] *)
Definition or_wrap {A} (m : Tx A) (prefix : string) : Tx A := fun db =>
  match m db with
  | (db', inl e) => (db', inl (Errorf_w prefix e))
  | r => r
  end.

(** [db.Transaction(fc)]: fc runs between BEGIN and COMMIT; when it returns
    an error (or COMMIT fails) the transaction is rolled back. *)
Definition Transaction (env : Env) (fc : Tx unit) (db : DB) : DB * option error :=
  match db_error env Begin with
  | Some e => (db, Some e)
  | None =>
      match fc db with
      | (_, inl e) => (db, Some e)
      | (db', inr _) =>
          match db_error env Commit with
          | Some e => (db, Some e)
          | None => (db', None)
          end
      end
  end.

(** Rows with a DeletedAt are invisible to queries and updates. *)
Definition leave_with_id (id : string) (r : LeaveRequest) : bool :=
  String.eqb (lr_ID r) id && bool_decide (lr_DeletedAt r = None).

Definition balance_for (employeeID leaveType : string) (year : Z) (r : LeaveBalance) : bool :=
  String.eqb (lb_EmployeeID r) employeeID && String.eqb (lb_LeaveType r) leaveType
  && (lb_Year r =? year) && bool_decide (lb_DeletedAt r = None).

Definition balance_with_id (id : string) (r : LeaveBalance) : bool :=
  String.eqb (lb_ID r) id && bool_decide (lb_DeletedAt r = None).

(** [First(&dest, conds)]: the first matching row in primary-key order, or
    gorm.ErrRecordNotFound. *)
Definition First {R} (env : Env) (s : Stmt) (table : DB -> list R) (cond : R -> bool) : Tx R :=
  fun db =>
    match db_error env s with
    | Some e => (db, inl e)
    | None =>
        match List.find cond (table db) with
        | Some r => (db, inr r)
        | None => (db, inl ErrRecordNotFound)
        end
    end.

(** The SET clause built from a [map[string]any] for table leaves; gorm adds
    updated_at. *)
Definition col_string (m : gmap string any) (c : string) (old : string) : string :=
  match m !! c with Some (AString s) => s | _ => old end.

Definition col_time (m : gmap string any) (c : string) (old : Go.Time) : Go.Time :=
  match m !! c with Some (ATime t) => t | _ => old end.

Definition col_string_null (m : gmap string any) (c : string) (old : option string)
  : option string :=
  match m !! c with Some (AString s) => Some s | Some Nil => None | _ => old end.

Definition col_time_null (m : gmap string any) (c : string) (old : option Go.Time)
  : option Go.Time :=
  match m !! c with
  | Some (ATimePtr t) => Some t | Some (ATime t) => Some t | Some Nil => None
  | _ => old
  end.

Definition set_columns (env : Env) (m : gmap string any) (r : LeaveRequest) : LeaveRequest :=
  {| lr_ID := lr_ID r;
     lr_EmployeeID := lr_EmployeeID r;
     lr_LeaveType := col_string m "leave_type" (lr_LeaveType r);
     lr_StartDate := col_time m "start_date" (lr_StartDate r);
     lr_EndDate := col_time m "end_date" (lr_EndDate r);
     lr_DaysRequested := lr_DaysRequested r;
     lr_Reason := col_string m "reason" (lr_Reason r);
     lr_LeaveStatus := col_string m "leave_status" (lr_LeaveStatus r);
     lr_ApproverID := col_string_null m "approver_id" (lr_ApproverID r);
     lr_Comments := col_string m "comments" (lr_Comments r);
     lr_ApprovedAt := col_time_null m "approved_at" (lr_ApprovedAt r);
     lr_CreatedAt := lr_CreatedAt r;
     lr_UpdatedAt := now env;
     lr_DeletedAt := lr_DeletedAt r |}.

(** [Model(..).Where("id = ?", id).Updates(m)], and [Model(&leave).Updates(m)]
    with id the primary key of leave:
    UPDATE leaves SET m.. WHERE id = ? AND deleted_at IS NULL *)
Definition Updates (env : Env) (s : Stmt) (id : string) (m : gmap string any) : Tx unit :=
  fun db =>
    match db_error env s with
    | Some e => (db, inl e)
    | None =>
        ({| leaves := List.map (fun r => if leave_with_id id r then set_columns env m r else r)
                               (leaves db);
            leave_balances := leave_balances db |}, inr tt)
    end.

(** The row [Save] writes for a balance: every column of the struct, with
    updated_at; RemainingDays is not a column and stays as it is in the row. *)
Definition saved_balance (env : Env) (b old : LeaveBalance) : LeaveBalance :=
  {| lb_ID := lb_ID b;
     lb_EmployeeID := lb_EmployeeID b;
     lb_LeaveType := lb_LeaveType b;
     lb_Year := lb_Year b;
     lb_TotalDays := lb_TotalDays b;
     lb_UsedDays := lb_UsedDays b;
     lb_RemainingDays := lb_RemainingDays old;
     lb_CreatedAt := lb_CreatedAt b;
     lb_UpdatedAt := now env;
     lb_DeletedAt := lb_DeletedAt b |}.

(** [tx.Save(&balance)] of a balance read in the same transaction (its
    primary key is set and its row exists): UPDATE of all columns by
    primary key. *)
Definition Save (env : Env) (b : LeaveBalance) : Tx unit :=
  fun db =>
    match db_error env SaveBalance with
    | Some e => (db, inl e)
    | None =>
        ({| leaves := leaves db;
            leave_balances :=
              List.map (fun r => if balance_with_id (lb_ID b) r then saved_balance env b r else r)
                       (leave_balances db) |}, inr tt)
    end.

(** *** repository.go *)

Definition Update (env : Env) (id : string) (req : UpdateLeaveRequestRequest) (db : DB)
  : DB * option error :=
  let updateData : gmap string any := ∅ in
  let updateData := if negb (String.eqb (ur_LeaveType req) "")
                    then <["leave_type" := AString (ur_LeaveType req)]> updateData
                    else updateData in
  let updateData := if negb (Go.IsZero (ur_StartDate req))
                    then <["start_date" := ATime (ur_StartDate req)]> updateData
                    else updateData in
  let updateData := if negb (Go.IsZero (ur_EndDate req))
                    then <["end_date" := ATime (ur_EndDate req)]> updateData
                    else updateData in
  let updateData := if negb (String.eqb (ur_Reason req) "")
                    then <["reason" := AString (ur_Reason req)]> updateData
                    else updateData in
  if bool_decide (size updateData = 0%nat) then (db, Some (Errorf "no fields to update"))
  else
    match Updates env UpdateFields id updateData db with
    | (_, inl err) => (db, Some (Errorf_w "failed to update leave request: " err))
    | (db', inr _) => (db', None)
    end.

Definition set_UsedDays (balance : LeaveBalance) (v : Z) : LeaveBalance :=
  {| lb_ID := lb_ID balance; lb_EmployeeID := lb_EmployeeID balance;
     lb_LeaveType := lb_LeaveType balance; lb_Year := lb_Year balance;
     lb_TotalDays := lb_TotalDays balance; lb_UsedDays := v;
     lb_RemainingDays := lb_RemainingDays balance; lb_CreatedAt := lb_CreatedAt balance;
     lb_UpdatedAt := lb_UpdatedAt balance; lb_DeletedAt := lb_DeletedAt balance |}.

Definition set_TotalDays (balance : LeaveBalance) (v : Z) : LeaveBalance :=
  {| lb_ID := lb_ID balance; lb_EmployeeID := lb_EmployeeID balance;
     lb_LeaveType := lb_LeaveType balance; lb_Year := lb_Year balance;
     lb_TotalDays := v; lb_UsedDays := lb_UsedDays balance;
     lb_RemainingDays := lb_RemainingDays balance; lb_CreatedAt := lb_CreatedAt balance;
     lb_UpdatedAt := lb_UpdatedAt balance; lb_DeletedAt := lb_DeletedAt balance |}.

(** The transaction function of ApproveLeave. *)
Definition approve_tx (env : Env) (id : string) (req : ApproveLeaveRequestRequest) : Tx unit :=
  leave ← or_wrap (First env SelectLeave leaves (leave_with_id id)) "leave request not found: ";
  if negb (String.eqb (lr_LeaveStatus leave) "PENDING") then
    fail (Errorf ("cannot approve leave with status: " +:+ lr_LeaveStatus leave))
  else
    let now := now env in
    _ ← or_wrap (Updates env UpdateLeave (lr_ID leave)
                   (<["leave_status" := AString "APPROVED"]>
                    (<["approver_id" := AString (ar_ApproverID req)]>
                     (<["comments" := AString (ar_Comments req)]>
                      (<["approved_at" := ATimePtr now]> ∅)))))
                "failed to approve leave: ";
    (* Update LeaveBalance *)
    balance ← or_wrap (First env SelectBalance leave_balances
                         (balance_for (lr_EmployeeID leave) (lr_LeaveType leave)
                                      (Go.Year (lr_StartDate leave))))
                      "failed to fetch leave balance: ";
    let balance :=
      set_UsedDays balance (Go.int_add (lb_UsedDays balance) (lr_DaysRequested leave)) in
    let balance :=
      set_TotalDays balance (Go.max (lb_TotalDays balance) (lb_UsedDays balance)) in
    or_wrap (Save env balance) "failed to update leave balance: ".

Definition ApproveLeave (env : Env) (id : string) (req : ApproveLeaveRequestRequest) (db : DB)
  : DB * option error :=
  Transaction env (approve_tx env id req) db.

(** The transaction function of RejectLeave. *)
Definition reject_tx (env : Env) (id : string) (req : RejectLeaveRequestRequest) : Tx unit :=
  leave ← or_wrap (First env SelectLeave leaves (leave_with_id id)) "leave request not found: ";
  if negb (String.eqb (lr_LeaveStatus leave) "PENDING") then
    fail (Errorf ("cannot reject leave with status: " +:+ lr_LeaveStatus leave))
  else
    let now := now env in
    or_wrap (Updates env UpdateLeave (lr_ID leave)
               (<["leave_status" := AString "REJECTED"]>
                (<["approver_id" := AString (rr_ApproverID req)]>
                 (<["comments" := AString (rr_Comments req)]>
                  (<["approved_at" := ATimePtr now]> ∅)))))
            "failed to reject leave: ".

Definition RejectLeave (env : Env) (id : string) (req : RejectLeaveRequestRequest) (db : DB)
  : DB * option error :=
  Transaction env (reject_tx env id req) db.

(** *** repository.go: Delete and LeaveBalance

    These two methods issue one statement each; [refused] is the error with
    which the database refuses that statement, when it does. *)

Definition set_DeletedAt (r : LeaveRequest) (t : Go.Time) : LeaveRequest :=
  {| lr_ID := lr_ID r; lr_EmployeeID := lr_EmployeeID r; lr_LeaveType := lr_LeaveType r;
     lr_StartDate := lr_StartDate r; lr_EndDate := lr_EndDate r;
     lr_DaysRequested := lr_DaysRequested r; lr_Reason := lr_Reason r;
     lr_LeaveStatus := lr_LeaveStatus r; lr_ApproverID := lr_ApproverID r;
     lr_Comments := lr_Comments r; lr_ApprovedAt := lr_ApprovedAt r;
     lr_CreatedAt := lr_CreatedAt r; lr_UpdatedAt := lr_UpdatedAt r;
     lr_DeletedAt := Some t |}.

(** [Where("id = ? AND leave_status = 'PENDING'", id).Delete(&LeaveRequest{})].
    The model has a DeletedAt, so the row is not removed:
    UPDATE leaves SET deleted_at = now
    WHERE id = ? AND leave_status = 'PENDING' AND deleted_at IS NULL *)
Definition Delete (now : Go.Time) (refused : option error) (id : string) (db : DB)
  : DB * option error :=
  match refused with
  | Some err =>
      (db, Some (Errorf_w ("failed to delete leave request with id " +:+ id +:+ " : ") err))
  | None =>
      ({| leaves :=
            List.map (fun r => if leave_with_id id r && String.eqb (lr_LeaveStatus r) "PENDING"
                               then set_DeletedAt r now else r)
                     (leaves db);
          leave_balances := leave_balances db |}, None)
  end.

Record GetEmployeeLeaveBalanceRequest := {
  br_EmployeeID : string;
  br_Year : Z
}.

Definition set_RemainingDays (b : LeaveBalance) (v : Z) : LeaveBalance :=
  {| lb_ID := lb_ID b; lb_EmployeeID := lb_EmployeeID b;
     lb_LeaveType := lb_LeaveType b; lb_Year := lb_Year b;
     lb_TotalDays := lb_TotalDays b; lb_UsedDays := lb_UsedDays b;
     lb_RemainingDays := v; lb_CreatedAt := lb_CreatedAt b;
     lb_UpdatedAt := lb_UpdatedAt b; lb_DeletedAt := lb_DeletedAt b |}.

(** The WHERE clause of the method LeaveBalance: the employee, the year when
    the request names one (a Year of 0 means every year), live rows only. *)
Definition balance_wanted (req : GetEmployeeLeaveBalanceRequest) (r : LeaveBalance) : bool :=
  String.eqb (lb_EmployeeID r) (br_EmployeeID req)
  && (if negb (br_Year req =? 0) then lb_Year r =? br_Year req else true)
  && bool_decide (lb_DeletedAt r = None).

(** The method [LeaveBalance] of the repository (the name is taken by the
    struct): the rows found, in table order, each with RemainingDays
    recomputed; [(nil, err)] is [inl err]. *)
Definition repository_LeaveBalance (refused : option error)
  (req : GetEmployeeLeaveBalanceRequest) (db : DB) : error + list LeaveBalance :=
  match refused with
  | Some err => inl (Errorf_w "failed to fetch leave balances: " err)
  | None =>
      let balances := List.filter (balance_wanted req) (leave_balances db) in
      inr (List.map (fun b => set_RemainingDays b (GetRemainingDays b)) balances)
  end.

(** *** Sample data *)

Definition no_error : Stmt -> option error := fun _ => None.

Definition sample_env : Env := {| now := Go.Date 2023 12 20; db_error := no_error |}.

Definition sample_leave (status : string) : LeaveRequest :=
  {| lr_ID := "leave-1"; lr_EmployeeID := "emp-1"; lr_LeaveType := "ANNUAL";
     lr_StartDate := Go.Date 2024 1 1; lr_EndDate := Go.Date 2024 1 3;
     lr_DaysRequested := 3; lr_Reason := "family"; lr_LeaveStatus := status;
     lr_ApproverID := None; lr_Comments := ""; lr_ApprovedAt := None;
     lr_CreatedAt := Go.Date 2023 12 1; lr_UpdatedAt := Go.Date 2023 12 1;
     lr_DeletedAt := None |}.

Definition sample_balance : LeaveBalance :=
  {| lb_ID := "bal-1"; lb_EmployeeID := "emp-1"; lb_LeaveType := "ANNUAL";
     lb_Year := 2024; lb_TotalDays := 10; lb_UsedDays := 2; lb_RemainingDays := 0;
     lb_CreatedAt := Go.Date 2023 1 1; lb_UpdatedAt := Go.Date 2023 1 1;
     lb_DeletedAt := None |}.

Definition sample_db (status : string) : DB :=
  {| leaves := [sample_leave status]; leave_balances := [sample_balance] |}.

Definition sample_approve : ApproveLeaveRequestRequest :=
  {| ar_ApproverID := "mgr-7"; ar_Comments := "ok" |}.

Definition sample_reject : RejectLeaveRequestRequest :=
  {| rr_ApproverID := "mgr-7"; rr_Comments := "busy period" |}.

End Leave.

(* ===================================================================== *)
(** ** internal/middleware                                               *)
(* ===================================================================== *)

Module Middleware.
Import Errors Dyn.

(** *** Package strings, context and grpc *)

(** [strings.HasPrefix(s, prefix)] *)
Definition HasPrefix (s prefix : string) : bool := String.prefix prefix s.

(** [strings.TrimPrefix(s, prefix)] *)
Definition TrimPrefix (s prefix : string) : string :=
  if HasPrefix s prefix
  then String.substring (String.length prefix) (String.length s - String.length prefix) s
  else s.

(** A [context.Context]: the incoming gRPC metadata, when there is any, and
    the chain of values attached by [context.WithValue], newest first.  Keys
    are [any] values, so a key is found only under the same dynamic type. *)
Record Context := {
  incoming : option (gmap string (list string));
  values : list (any * any)
}.

(** [context.WithValue(ctx, key, val)] *)
Definition WithValue (ctx : Context) (key val : any) : Context :=
  {| incoming := incoming ctx; values := (key, val) :: values ctx |}.

(** [ctx.Value(key)] *)
Definition Value (ctx : Context) (key : any) : any :=
  match List.find (fun kv => bool_decide (fst kv = key)) (values ctx) with
  | Some kv => snd kv
  | None => Nil
  end.

(** The type assertion [v.(string)] in its two-result form. *)
Definition assert_string (v : any) : string * bool :=
  match v with
  | AString s => (s, true)
  | _ => (""%string, false)
  end.

Record UnaryServerInfo := { FullMethod : string }.

(** [grpc.UnaryHandler] *)
Definition UnaryHandler : Type := Context -> any -> Outcome (any * option error).

(** *** The authentication interceptor *)

(** The two results [(ctx, nil)] and [(nil, err)] are [inr ctx] and [inl err]. *)
Definition AuthFunc (ctx : Context) : error + Context :=
  (* Get Metadata from context *)
  match incoming ctx with
  | None => inl (status_Error Unauthenticated "missing metadata")
  | Some md =>
      (* Get Authoriation header *)
      let authHeaders := default [] (md !! "authrorization"%string) in
      match authHeaders with
      | [] => inl (status_Error Unauthenticated "missing authorization header")
      | authHeader :: _ =>
          (* Extract token from "Bearer <token>" *)
          if negb (HasPrefix authHeader "Bearer") then
            inl (status_Error Unauthenticated "invalid authorization format")
          else
            let token := TrimPrefix authHeader "Bearer " in
            if String.eqb token "" then
              inl (status_Error Unauthenticated "missing token")
            else
              let ctx := WithValue ctx (AContextKey "token") (AString token) in
              inr ctx
      end
  end.

Definition GetTokenFromContext (ctx : Context) : string * bool :=
  assert_string (Value ctx (AString "token")).

Definition publicEndpoints : list string :=
  [ "/hr.auth.v1.AuthService/Login";
    "/hr.auth.v1.AuthServce/RefreshToken" ]%string.

Definition SkipAuth (fullMethodName : string) : bool :=
  existsb (fun e => String.eqb e fullMethodName) publicEndpoints.

Definition UnaryAuthInterceptor (ctx : Context) (req : any) (info : UnaryServerInfo)
  (handler : UnaryHandler) : Outcome (any * option error) :=
  (* Skip authentication for public endpoints *)
  if SkipAuth (FullMethod info) then handler ctx req
  else
    (* Authenticate request *)
    match AuthFunc ctx with
    | inl err => Returned (Nil, Some err)
    | inr newCtx => handler newCtx req
    end.

(** *** logging.go *)

(** What the logger has written: one entry per call of Error or Info. *)
Record LogEntry := {
  level : string;
  message : string;
  fields : gmap string any
}.

(** [recover()] in a deferred function: nil when the function is returning
    normally, otherwise the value of the panic (never nil: a panic with a nil
    argument carries a PanicNilError). *)
Definition recover {A} (o : Outcome A) : any :=
  match o with
  | Returned _ => Nil
  | Panicked Nil => ARuntimeError PanicNilError
  | Panicked v => v
  end.

(** [RecoveryInterceptor(log)(ctx, req, info, handler)], with the entries the
    logger holds before and after the call.  The results [resp] and [err]
    are named: they hold nil until [return handler(ctx, req)] assigns them,
    and the deferred function may overwrite [err]. *)
Definition RecoveryInterceptor (log : list LogEntry) (ctx : Context) (req : any)
  (info : UnaryServerInfo) (handler : UnaryHandler)
  : list LogEntry * Outcome (any * option error) :=
  let call := handler ctx req in
  let '(resp, err) := match call with
                      | Returned r => r
                      | Panicked _ => (Nil, None)
                      end in
  let r := recover call in
  if bool_decide (r <> Nil) then
    (log ++ [ {| level := "error"; message := "Panic recovered";
                 fields := <["method" := AString (FullMethod info)]> (<["panic" := r]> ∅) |} ],
     Returned (resp, Some (status_Error Internal "internal server error")))
  else
    (log, Returned (resp, err)).

Definition charset : string :=
  "abcdefghijklmnopqrstuvwxyzABCDEFGHIJKLMNOPQRSTUVWXYZ0123456789".

(** [charset[k]] *)
Definition charset_at (k : Z) : option Ascii.ascii :=
  if k <? 0 then None else String.get (Z.to_nat k) charset.

Section Clock.

(** [clock n] is [time.Now().UnixNano()] at the n-th reading of the clock
    during a call; [Format_20060102150405] is
    [t.Format("20060102150405")] in the zone of the server. *)
Variable clock : nat -> Z.
Variable Format_20060102150405 : Z -> string.

(** The loop [for i := range charset { b[i] = charset[...] }]: the right-hand
    side is evaluated, then the element is stored. *)
Fixpoint randomString_loop (n0 : nat) (indices : list nat) (b : list Ascii.ascii)
  : Outcome (list Ascii.ascii) :=
  match indices with
  | [] => Returned b
  | i :: rest =>
      let k := Z.rem (clock (n0 + i)) (Z.of_nat (String.length charset)) in
      match charset_at k with
      | None =>
          Panicked (ARuntimeError (IndexOutOfRange k (Z.of_nat (String.length charset))))
      | Some c =>
          if (i <? length b)%nat then randomString_loop n0 rest (<[i := c]> b)
          else Panicked (ARuntimeError (IndexOutOfRange (Z.of_nat i) (Z.of_nat (length b))))
      end
  end.

(** [randomString(length)], the clock having been read n0 times before. *)
Definition randomString (n0 : nat) (length : Z) : Outcome string :=
  if length <? 0 then Panicked (ARuntimeError MakeSliceLenOutOfRange)
  else
    let b := List.repeat Ascii.zero (Z.to_nat length) in
    match randomString_loop n0 (seq 0 (String.length charset)) b with
    | Returned b => Returned (String.string_of_list_ascii b)
    | Panicked v => Panicked v
    end.

Definition generateRequestID : Outcome string :=
  let stamp := Format_20060102150405 (clock 0%nat) in
  match randomString 1%nat 8 with
  | Returned s => Returned (stamp +:+ "-" +:+ s)
  | Panicked v => Panicked v
  end.

Definition getRequestID (ctx : Context) : Outcome string :=
  match assert_string (Value ctx (AString "request_id")) with
  | (reqID, true) => Returned reqID
  | _ => generateRequestID
  end.

End Clock.

(** *** The stream interceptors *)

(** A [grpc.ServerStream]: its context, and the stream underneath. *)
Record ServerStream := {
  ss_Context : Context;
  ss_transport : nat
}.

Record StreamServerInfo := { ss_FullMethod : string }.

(** [grpc.StreamHandler] *)
Definition StreamHandler : Type := any -> ServerStream -> Outcome (option error).

(** [&wrappedServerStream{ss, newCtx}]: the stream ss with Context()
    overridden. *)
Definition wrappedServerStream (ss : ServerStream) (ctx : Context) : ServerStream :=
  {| ss_Context := ctx; ss_transport := ss_transport ss |}.

Definition StreamAuthInterceptor (srv : any) (ss : ServerStream) (info : StreamServerInfo)
  (handler : StreamHandler) : Outcome (option error) :=
  (* Skip authentication for public endpoints *)
  if SkipAuth (ss_FullMethod info) then handler srv ss
  else
    (* Authenticate request *)
    match AuthFunc (ss_Context ss) with
    | inl err => Returned (Some err)
    | inr newCtx =>
        let wrappedStream := wrappedServerStream ss newCtx in
        handler srv wrappedStream
    end.

Definition StreamRecoveryInterceptor (log : list LogEntry) (srv : any) (ss : ServerStream)
  (info : StreamServerInfo) (handler : StreamHandler)
  : list LogEntry * Outcome (option error) :=
  let call := handler srv ss in
  let err := match call with
             | Returned e => e
             | Panicked _ => None
             end in
  let r := recover call in
  if bool_decide (r <> Nil) then
    (log ++ [ {| level := "error"; message := "Stream panic recovered";
                 fields := <["method" := AString (ss_FullMethod info)]> (<["panic" := r]> ∅) |} ],
     Returned (Some (status_Error Internal "internal server error")))
  else
    (log, Returned err).

(** *** The logging interceptor *)

(** A [codes.Code] is a uint32. *)
Definition Code_number (c : Code) : Z :=
  match c with
  | OK => 0 | Unknown => 2 | InvalidArgument => 3 | NotFound => 5 | AlreadyExists => 6
  | FailedPrecondition => 9 | Internal => 13 | Unauthenticated => 16
  end.

(** [d.Milliseconds()] *)
Definition Milliseconds (d : Go.Duration) : Z := Z.quot d 1000000.

Section Logging.

(** The clock and the layout function, as for the request identifiers. *)
Variable clock : nat -> Z.
Variable Format_20060102150405 : Z -> string.

(** [LoggingInterceptor(log)(ctx, req, info, handler)], with the entries the
    logger holds before and after the call.  The clock is read for [start],
    by getRequestID when it generates an identifier, and for
    [time.Since(start)]. *)
Definition LoggingInterceptor (log : list LogEntry) (ctx : Context) (req : any)
  (info : UnaryServerInfo) (handler : UnaryHandler)
  : list LogEntry * Outcome (any * option error) :=
  let start := clock 0%nat in
  match getRequestID (fun n => clock (S n)) Format_20060102150405 ctx with
  | Panicked v => (log, Panicked v)
  | Returned requestID =>
      let reqLogger : gmap string any :=
        <["request_id" := AString requestID]>
        (<["method" := AString (FullMethod info)]>
         (<["component" := AString "grpc"]> ∅)) in
      let log := log ++ [ {| level := "info"; message := "Request started";
                             fields := reqLogger |} ] in
      match handler ctx req with
      | Panicked v => (log, Panicked v)
      | Returned (resp, err) =>
          let duration := Go.Sub (clock 1%nat) start in
          match err with
          | Some e =>
              (log ++ [ {| level := "error"; message := "Request failed";
                           fields :=
                             <["duration_ms" := AInt (Milliseconds duration)]>
                             (<["status_code" := AInt (Code_number (status_Code e))]>
                              (<["error" := AString (Error e)]> reqLogger)) |} ],
               Returned (resp, err))
          | None =>
              (log ++ [ {| level := "info"; message := "Request completed";
                           fields :=
                             <["duration_ms" := AInt (Milliseconds duration)]>
                             (<["status_code" := AInt (Code_number OK)]> reqLogger) |} ],
               Returned (resp, err))
          end
      end
  end.

End Logging.

End Middleware.

(* ===================================================================== *)
(** ** pkg/logger                                                        *)
(* ===================================================================== *)

Module Logger.
Import Dyn.

(** The key of a pair: [key, ok := keysAndValues[i].(string)], and
    "INVALID_KEY" when it is not a string. *)
Definition key_of (k : any) : string :=
  match k with
  | AString key => key
  | _ => "INVALID_KEY"%string
  end.

(** The loop [for i := 0; i < len(keysAndValues); i += 2] over a slice of
    even length. *)
Fixpoint parse_pairs (keysAndValues : list any) (fields : gmap string any)
  : gmap string any :=
  match keysAndValues with
  | key :: value :: rest => parse_pairs rest (<[key_of key := value]> fields)
  | _ => fields
  end.

Definition parseKeysAndValues (keysAndValues : list any) : gmap string any :=
  let keysAndValues :=
    if Nat.odd (length keysAndValues)
    then keysAndValues ++ [AString "MISSING_VALUE"]
    else keysAndValues in
  parse_pairs keysAndValues ∅.

End Logger.

(* ===================================================================== *)
(** ** Properties                                                        *)
(* ===================================================================== *)

Import Errors Dyn Leave Middleware.

(** *** Notions the specification uses *)

(** The range of an INTEGER column (days_requested, total_days, used_days
    in the leaves and leave_balances tables). *)
Definition in_int32 (z : Z) : Prop := - 2 ^ 31 <= z < 2 ^ 31.

(** A calendar date: an instant at midnight UTC. *)
Definition is_date (t : Go.Time) : Prop := t mod Go.nanos_per_day = 0.

(** end date - start date, in days. *)
Definition days_between (startDate endDate : Go.Time) : Z :=
  (endDate - startDate) / Go.nanos_per_day.

(** The longest whole number of days a Duration holds. *)
Definition max_span_days : Z := 106751.

(** The day count as a function of the duration between the dates, and as
    a function of the whole hours and the remaining nanoseconds of it. *)
Definition days_of_hours (hour nsec : Z) : Z :=
  let hours :=
    PrimFloat.add (Go.float64_of_int hour)
                  (PrimFloat.div (Go.float64_of_int nsec)
                                 (Go.float64_of_int (60 * 60 * 1000000000))) in
  let days :=
    Go.int_add (Go.int_of_float64 (PrimFloat.div hours (Go.float64_of_int 24))) 1 in
  if days <? 0 then 0 else days.

Definition days_of_duration (duration : Go.Duration) : Z :=
  days_of_hours (Z.quot duration Go.Hour) (Z.rem duration Go.Hour).

(** The float64 quotient by 24 of a whole number of hours, as an int. *)
Definition days_in_hours (hour : Z) : Z :=
  Go.int_of_float64
    (PrimFloat.div (PrimFloat.add (Go.float64_of_int hour) 0%float) 24%float).

(** [sweep n k]: the quotient is exact for k, k+1, ..., k+n-1 whole days. *)
Fixpoint sweep (n : nat) (k : Z) : bool :=
  match n with
  | O => true
  | S n' => (days_in_hours (24 * k) =? k) && sweep n' (k + 1)
  end.

(** The statements a successful approval executes. *)
Definition approval_stmts : list Stmt :=
  [Begin; SelectLeave; UpdateLeave; SelectBalance; SaveBalance; Commit].

(** The key of the balance row a request is debited from. *)
Definition balance_of (leave : LeaveRequest) : LeaveBalance -> bool :=
  balance_for (lr_EmployeeID leave) (lr_LeaveType leave) (Go.Year (lr_StartDate leave)).

(** Every step of an approval goes through: the six statements are
    executed, the request exists and is PENDING, its balance row exists. *)
Definition approval_succeeds (env : Env) (id : string) (db : DB) : Prop :=
  (forall s, In s approval_stmts -> db_error env s = None)
  /\ exists leave,
       List.find (leave_with_id id) (leaves db) = Some leave
       /\ lr_LeaveStatus leave = "PENDING"%string
       /\ exists balance, List.find (balance_of leave) (leave_balances db) = Some balance.

(** The columns ApproveLeave writes to the request. *)
Definition approve_columns (env : Env) (req : ApproveLeaveRequestRequest) : gmap string any :=
  <["leave_status" := AString "APPROVED"]>
  (<["approver_id" := AString (ar_ApproverID req)]>
   (<["comments" := AString (ar_Comments req)]>
    (<["approved_at" := ATimePtr (now env)]> ∅))).

(** The columns RejectLeave writes to the request. *)
Definition reject_columns (env : Env) (req : RejectLeaveRequestRequest) : gmap string any :=
  <["leave_status" := AString "REJECTED"]>
  (<["approver_id" := AString (rr_ApproverID req)]>
   (<["comments" := AString (rr_Comments req)]>
    (<["approved_at" := ATimePtr (now env)]> ∅))).

(** The balance ApproveLeave saves. *)
Definition debited (leave : LeaveRequest) (balance : LeaveBalance) : LeaveBalance :=
  let balance :=
    set_UsedDays balance (Go.int_add (lb_UsedDays balance) (lr_DaysRequested leave)) in
  set_TotalDays balance (Go.max (lb_TotalDays balance) (lb_UsedDays balance)).

(** *** Data of the examples *)

(** The create request of the specification: 2024-01-01 to 2024-01-03. *)
Definition sample_create : CreateLeaveRequestRequest :=
  {| cr_EmployeeID := "emp-1"; cr_LeaveType := "ANNUAL";
     cr_StartDate := Go.Date 2024 1 1; cr_EndDate := Go.Date 2024 1 3;
     cr_Reason := "family" |}.

(** A create request whose dates are 324 years apart. *)
Definition long_create : CreateLeaveRequestRequest :=
  {| cr_EmployeeID := "emp-1"; cr_LeaveType := "ANNUAL";
     cr_StartDate := Go.Date 1700 1 1; cr_EndDate := Go.Date 2024 1 1;
     cr_Reason := "sabbatical" |}.

(** An update request that moves the end date to 2024-01-05 and nothing
    else (the other fields have their zero values). *)
Definition extend_end : UpdateLeaveRequestRequest :=
  {| ur_LeaveType := ""; ur_StartDate := 0; ur_EndDate := Go.Date 2024 1 5; ur_Reason := "" |}.

(** An incoming context with one metadata header and no values. *)
Definition ctx_with_header (name value : string) : Context :=
  {| incoming := Some {[ name := [value] ]}; values := [] |}.

(** A context without metadata and without values. *)
Definition empty_ctx : Context := {| incoming := None; values := [] |}.

(** A context that already carries a string under the plain key "token"
    (set by an earlier interceptor, say). *)
Definition ctx_with_plain_token : Context :=
  {| incoming := Some {[ "authrorization"%string := ["Bearer abc"%string] ]};
     values := [(AString "token", AString "earlier")] |}.

Definition GetEmployee : UnaryServerInfo :=
  {| FullMethod := "/hr.employee.v1.EmployeeService/GetEmployee" |}.

Definition RefreshToken : UnaryServerInfo :=
  {| FullMethod := "/hr.auth.v1.AuthService/RefreshToken" |}.

Definition Login : UnaryServerInfo :=
  {| FullMethod := "/hr.auth.v1.AuthService/Login" |}.

(** A clock in November 2023 that advances by a microsecond per reading. *)
Definition sample_clock (i : nat) : Z := 1700000000000000000 + 1000 * Z.of_nat i.

Definition sample_Format (_ : Z) : string := "20231114221320".

(** The statements a successful rejection executes. *)
Definition rejection_stmts : list Stmt := [Begin; SelectLeave; UpdateLeave; Commit].

(** Every step of a rejection goes through: the four statements are
    executed, the request exists and is PENDING. *)
Definition rejection_succeeds (env : Env) (id : string) (db : DB) : Prop :=
  (forall s, In s rejection_stmts -> db_error env s = None)
  /\ exists leave,
       List.find (leave_with_id id) (leaves db) = Some leave
       /\ lr_LeaveStatus leave = "PENDING"%string.

(** The column map Update builds from a request. *)
Definition update_columns (req : UpdateLeaveRequestRequest) : gmap string any :=
  let updateData : gmap string any := ∅ in
  let updateData := if negb (String.eqb (ur_LeaveType req) "")
                    then <["leave_type" := AString (ur_LeaveType req)]> updateData
                    else updateData in
  let updateData := if negb (Go.IsZero (ur_StartDate req))
                    then <["start_date" := ATime (ur_StartDate req)]> updateData
                    else updateData in
  let updateData := if negb (Go.IsZero (ur_EndDate req))
                    then <["end_date" := ATime (ur_EndDate req)]> updateData
                    else updateData in
  if negb (String.eqb (ur_Reason req) "")
  then <["reason" := AString (ur_Reason req)]> updateData
  else updateData.

(** An update request names at least one field. *)
Definition names_a_field (req : UpdateLeaveRequestRequest) : Prop :=
  ur_LeaveType req <> ""%string \/ ur_StartDate req <> 0 \/ ur_EndDate req <> 0
  \/ ur_Reason req <> ""%string.

(** The stored day count is the inclusive span of the stored dates. *)
Definition day_count_ok (lr : LeaveRequest) : Prop :=
  lr_DaysRequested lr = days_between (lr_StartDate lr) (lr_EndDate lr) + 1.

(** The request for the balances of an employee in the year a leave
    starts. *)
Definition balance_request (leave : LeaveRequest) : GetEmployeeLeaveBalanceRequest :=
  {| br_EmployeeID := lr_EmployeeID leave; br_Year := Go.Year (lr_StartDate leave) |}.

(** The credential AuthFunc looks for: the first value of the metadata key
    it reads starts with "Bearer" and is not empty once "Bearer " is
    trimmed. *)
Definition credential_accepted (ctx : Context) : Prop :=
  exists md authHeader rest,
    incoming ctx = Some md
    /\ md !! "authrorization"%string = Some (authHeader :: rest)
    /\ HasPrefix authHeader "Bearer" = true
    /\ TrimPrefix authHeader "Bearer " <> ""%string.

(** The arguments a caller passes for a list of key/value pairs:
    k1, v1, k2, v2, ... *)
Definition keys_and_values (pairs : list (string * any)) : list any :=
  List.flat_map (fun kv => [AString (fst kv); snd kv]) pairs.

(** *** Data of the further examples *)

(** The sample request, PENDING, in a database without balance rows. *)
Definition db_without_balance : DB :=
  {| leaves := [sample_leave "PENDING"]; leave_balances := [] |}.

(** A request and a balance row of a second employee. *)
Definition other_leave : LeaveRequest :=
  {| lr_ID := "leave-2"; lr_EmployeeID := "emp-2"; lr_LeaveType := "SICK";
     lr_StartDate := Go.Date 2024 2 5; lr_EndDate := Go.Date 2024 2 6;
     lr_DaysRequested := 2; lr_Reason := "flu"; lr_LeaveStatus := "PENDING";
     lr_ApproverID := None; lr_Comments := ""; lr_ApprovedAt := None;
     lr_CreatedAt := Go.Date 2024 2 1; lr_UpdatedAt := Go.Date 2024 2 1;
     lr_DeletedAt := None |}.

Definition other_balance : LeaveBalance :=
  {| lb_ID := "bal-2"; lb_EmployeeID := "emp-2"; lb_LeaveType := "SICK";
     lb_Year := 2024; lb_TotalDays := 5; lb_UsedDays := 4; lb_RemainingDays := 0;
     lb_CreatedAt := Go.Date 2023 1 1; lb_UpdatedAt := Go.Date 2023 1 1;
     lb_DeletedAt := None |}.

Definition two_employees_db : DB :=
  {| leaves := [sample_leave "PENDING"; other_leave];
     leave_balances := [sample_balance; other_balance] |}.

(** A create request whose end date is two days before its start date. *)
Definition reversed_create : CreateLeaveRequestRequest :=
  {| cr_EmployeeID := "emp-1"; cr_LeaveType := "ANNUAL";
     cr_StartDate := Go.Date 2024 1 3; cr_EndDate := Go.Date 2024 1 1;
     cr_Reason := "family" |}.

(** A stream whose context carries one metadata header. *)
Definition stream_with_header (name value : string) : ServerStream :=
  {| ss_Context := ctx_with_header name value; ss_transport := 7%nat |}.

Definition ListEmployeesStream : StreamServerInfo :=
  {| ss_FullMethod := "/hr.employee.v1.EmployeeService/StreamEmployees" |}.

(** *** The Go runtime *)

Example Date_2024 :
  Go.Year (Go.Date 2024 1 1) = 2024 /\ Go.Year (Go.Date 2023 12 31) = 2023
  /\ Go.Date 1 1 1 = 0 /\ Go.Date 1970 1 1 = 719162 * Go.nanos_per_day.
Proof. vm_compute. auto. Qed.

Lemma wrap64_id (z : Z) : Go.in_int64 z -> Go.wrap64 z = z.
Proof.
  unfold Go.in_int64, Go.min_int64, Go.max_int64, Go.wrap64.
  intros H. rewrite Z.mod_small; lia.
Qed.

Lemma wrap64_id_add (a b : Z) :
  Go.min_int64 <= a + b <= Go.max_int64 -> Go.int_add a b = a + b.
Proof. intros H. apply wrap64_id. exact H. Qed.

Lemma in_int32_int64 (z : Z) : in_int32 z -> Go.in_int64 z.
Proof.
  unfold in_int32, Go.in_int64, Go.min_int64, Go.max_int64.
  change (2 ^ 31) with 2147483648. lia.
Qed.

Lemma int_add_int32 (a b : Z) : in_int32 a -> in_int32 b -> Go.int_add a b = a + b.
Proof.
  unfold in_int32. change (2 ^ 31) with 2147483648. intros Ha Hb.
  apply wrap64_id. unfold Go.in_int64, Go.min_int64, Go.max_int64. lia.
Qed.

Lemma max_Zmax (a b : Z) : Go.max a b = Z.max a b.
Proof. unfold Go.max. destruct (Z.ltb_spec a b); lia. Qed.

Lemma Sub_in_range (t u : Go.Time) :
  Go.minDuration <= t - u <= Go.maxDuration -> Go.Sub t u = t - u.
Proof.
  unfold Go.Sub. intros H.
  destruct (Z.ltb_spec (t - u) Go.minDuration); [lia|].
  destruct (Z.ltb_spec Go.maxDuration (t - u)); [lia|]. reflexivity.
Qed.

(** *** The transaction discipline *)

Lemma Transaction_error_rolls_back env fc db db' e :
  Transaction env fc db = (db', Some e) -> db' = db.
Proof.
  unfold Transaction.
  destruct (db_error env Begin); [congruence|].
  destruct (fc db) as [db1 [e1|u]]; [congruence|].
  destruct (db_error env Commit); congruence.
Qed.

Lemma Transaction_fc_error env fc db db1 e :
  db_error env Begin = None -> fc db = (db1, inl e) -> Transaction env fc db = (db, Some e).
Proof. intros HB Hfc. unfold Transaction. rewrite HB, Hfc. reflexivity. Qed.

Lemma Transaction_fc_ok env fc db db1 u :
  db_error env Begin = None -> db_error env Commit = None ->
  fc db = (db1, inr u) -> Transaction env fc db = (db1, None).
Proof. intros HB HC Hfc. unfold Transaction. rewrite HB, Hfc, HC. reflexivity. Qed.

Lemma find_map_same {R} (P : R -> bool) (F : R -> R) (l : list R) (x : R) :
  (forall r, P (F r) = P r) ->
  List.find P l = Some x ->
  List.find P (List.map (fun r => if P r then F r else r) l) = Some (F x).
Proof.
  intros HF. induction l as [|a l IH]; simpl; [discriminate|].
  destruct (P a) eqn:Ha.
  - intros [= ->]. rewrite HF, Ha. reflexivity.
  - rewrite Ha. exact IH.
Qed.

Lemma find_map_other {R} (P Q : R -> bool) (F : R -> R) (l : list R) (x : R) :
  (forall r, P (F r) = true) ->
  List.find P l = Some x -> Q x = true ->
  exists old, List.find P (List.map (fun r => if Q r then F r else r) l) = Some (F old).
Proof.
  intros HF. induction l as [|a l IH]; simpl; [discriminate|].
  destruct (P a) eqn:Ha.
  - intros [= ->] Hq. rewrite Hq, HF. eauto.
  - intros Hx Hq. destruct (Q a) eqn:Hqa.
    + rewrite HF. eauto.
    + rewrite Ha. auto.
Qed.

Lemma find_Some_holds {R} (P : R -> bool) (l : list R) (x : R) :
  List.find P l = Some x -> P x = true.
Proof. intros H. apply List.find_some in H. tauto. Qed.

(** *** ApproveLeave and RejectLeave *)

Lemma eqb_PENDING_false (s : string) : s <> "PENDING"%string -> String.eqb s "PENDING" = false.
Proof. intros H. apply String.eqb_neq. exact H. Qed.

Lemma leave_with_id_set_columns env m id r :
  leave_with_id id (set_columns env m r) = leave_with_id id r.
Proof. reflexivity. Qed.

(** Unfolds one call of the transaction function up to its statements. *)
Ltac tx_unfold :=
  unfold approve_tx, reject_tx, mbind, Tx_bind, or_wrap, fail, First, Updates, Save.

(** The select of the request is refused by the database. *)
Lemma approve_tx_select_refused env id req db e :
  db_error env SelectLeave = Some e ->
  approve_tx env id req db = (db, inl (Errorf_w "leave request not found: " e)).
Proof. intros HS. tx_unfold. rewrite HS. reflexivity. Qed.

(** The request does not exist. *)
Lemma approve_tx_missing env id req db :
  db_error env SelectLeave = None ->
  List.find (leave_with_id id) (leaves db) = None ->
  approve_tx env id req db
  = (db, inl (Errorf_w "leave request not found: " ErrRecordNotFound)).
Proof. intros HS Hf. tx_unfold. rewrite HS, Hf. reflexivity. Qed.

(** The request is not PENDING: nothing is written. *)
Lemma approve_tx_not_pending env id req db leave :
  db_error env SelectLeave = None ->
  List.find (leave_with_id id) (leaves db) = Some leave ->
  lr_LeaveStatus leave <> "PENDING"%string ->
  approve_tx env id req db
  = (db, inl (Errorf ("cannot approve leave with status: " +:+ lr_LeaveStatus leave))).
Proof.
  intros HS Hf Hst. tx_unfold. rewrite HS, Hf.
  rewrite (eqb_PENDING_false _ Hst). reflexivity.
Qed.

(** C1. Approving a request whose status is not PENDING fails with an error
    and returns the database it was given: the leave-request row and every
    leave-balance row are what they were before the call. *)
Theorem ApproveLeave_not_pending_fails_unchanged env id req db leave :
  List.find (leave_with_id id) (leaves db) = Some leave ->
  lr_LeaveStatus leave <> "PENDING"%string ->
  exists err, ApproveLeave env id req db = (db, Some err).
Proof.
  intros Hf Hst. unfold ApproveLeave.
  destruct (db_error env Begin) as [e|] eqn:HB.
  - exists e. unfold Transaction. rewrite HB. reflexivity.
  - destruct (db_error env SelectLeave) as [e|] eqn:HS.
    + eexists. eapply Transaction_fc_error; [exact HB|].
      apply approve_tx_select_refused. exact HS.
    + eexists. eapply Transaction_fc_error; [exact HB|].
      apply (approve_tx_not_pending env id req db leave); assumption.
Qed.

Lemma ApproveLeave_not_pending_fails_unchanged_witness :
  exists err,
    ApproveLeave sample_env "leave-1" sample_approve (sample_db "REJECTED")
    = (sample_db "REJECTED", Some err).
Proof.
  apply (ApproveLeave_not_pending_fails_unchanged sample_env "leave-1" sample_approve
           (sample_db "REJECTED") (sample_leave "REJECTED")).
  - reflexivity.
  - simpl. discriminate.
Defined.

(** Every statement is executed, the request is PENDING and its balance row
    exists: both rows are written. *)
Lemma approve_tx_ok env id req db leave balance :
  db_error env SelectLeave = None -> db_error env UpdateLeave = None ->
  db_error env SelectBalance = None -> db_error env SaveBalance = None ->
  List.find (leave_with_id id) (leaves db) = Some leave ->
  lr_LeaveStatus leave = "PENDING"%string ->
  List.find (balance_of leave) (leave_balances db) = Some balance ->
  approve_tx env id req db
  = ({| leaves :=
          List.map (fun r => if leave_with_id (lr_ID leave) r
                             then set_columns env (approve_columns env req) r else r)
                   (leaves db);
        leave_balances :=
          List.map (fun r => if balance_with_id (lb_ID balance) r
                             then saved_balance env (debited leave balance) r else r)
                   (leave_balances db) |}, inr tt).
Proof.
  intros HS HU HB HV Hf Hst Hb. tx_unfold.
  rewrite HS, Hf, Hst. simpl. rewrite HU. simpl. rewrite HB.
  unfold balance_of in Hb. rewrite Hb. simpl. rewrite HV. reflexivity.
Qed.

Lemma balance_of_saved env leave balance old :
  balance_of leave balance = true ->
  balance_of leave (saved_balance env (debited leave balance) old) = true.
Proof. intros H. exact H. Qed.

Lemma balance_of_with_id leave balance :
  balance_of leave balance = true -> balance_with_id (lb_ID balance) balance = true.
Proof.
  unfold balance_of, balance_for, balance_with_id. intros H.
  apply andb_prop in H as [_ H]. rewrite H, String.eqb_refl. reflexivity.
Qed.

Lemma GetRemainingDays_max (lb : LeaveBalance) :
  Go.in_int64 (lb_TotalDays lb - lb_UsedDays lb) ->
  GetRemainingDays lb = Z.max (lb_TotalDays lb - lb_UsedDays lb) 0.
Proof.
  intros H. unfold GetRemainingDays, Go.int_sub. rewrite (wrap64_id _ H).
  destruct (Z.ltb_spec (lb_TotalDays lb - lb_UsedDays lb) 0); lia.
Qed.

(** C2. Approving a PENDING request of D days against its balance row with
    total T and used U (INTEGER columns), every statement being executed,
    succeeds and leaves that row with used = U + D and
    total = max(T, U + D); the remaining days then computed for the row are
    max(total - used, 0). *)
Theorem ApproveLeave_debits_balance env id req db leave balance :
  (forall s, In s approval_stmts -> db_error env s = None) ->
  List.find (leave_with_id id) (leaves db) = Some leave ->
  lr_LeaveStatus leave = "PENDING"%string ->
  List.find (balance_of leave) (leave_balances db) = Some balance ->
  in_int32 (lr_DaysRequested leave) ->
  in_int32 (lb_TotalDays balance) ->
  in_int32 (lb_UsedDays balance) ->
  exists db' balance',
    ApproveLeave env id req db = (db', None)
    /\ List.find (balance_of leave) (leave_balances db') = Some balance'
    /\ lb_ID balance' = lb_ID balance
    /\ lb_UsedDays balance' = lb_UsedDays balance + lr_DaysRequested leave
    /\ lb_TotalDays balance'
       = Z.max (lb_TotalDays balance) (lb_UsedDays balance + lr_DaysRequested leave)
    /\ GetRemainingDays balance' = Z.max (lb_TotalDays balance' - lb_UsedDays balance') 0.
Proof.
  intros Hok Hf Hst Hb HD HT HU.
  assert (Hkey : balance_of leave balance = true) by (eapply find_Some_holds; exact Hb).
  destruct (find_map_other (balance_of leave) (balance_with_id (lb_ID balance))
              (saved_balance env (debited leave balance)) (leave_balances db) balance)
    as [old Hold].
  - intros r. apply balance_of_saved. exact Hkey.
  - exact Hb.
  - eapply balance_of_with_id. exact Hkey.
  - eexists. exists (saved_balance env (debited leave balance) old).
    assert (Hused : lb_UsedDays (saved_balance env (debited leave balance) old)
                    = lb_UsedDays balance + lr_DaysRequested leave)
      by (simpl; apply int_add_int32; assumption).
    assert (Htotal : lb_TotalDays (saved_balance env (debited leave balance) old)
                     = Z.max (lb_TotalDays balance)
                             (lb_UsedDays balance + lr_DaysRequested leave))
      by (simpl; rewrite max_Zmax, int_add_int32 by assumption; reflexivity).
    split; [|split; [|split; [|split; [|split]]]].
    + unfold ApproveLeave. eapply Transaction_fc_ok.
      * apply Hok. simpl. tauto.
      * apply Hok. simpl. tauto.
      * apply (approve_tx_ok env id req db leave balance); try assumption;
          apply Hok; simpl; tauto.
    + simpl. exact Hold.
    + reflexivity.
    + exact Hused.
    + exact Htotal.
    + apply GetRemainingDays_max. rewrite Hused, Htotal.
      unfold in_int32 in *. change (2 ^ 31) with 2147483648 in *.
      unfold Go.in_int64, Go.min_int64, Go.max_int64. lia.
Qed.

(** The example of the specification: a 3-day request against total = 10,
    used = 2 gives used = 5 and remaining = 5. *)
Lemma ApproveLeave_debits_balance_witness :
  exists db' balance',
    ApproveLeave sample_env "leave-1" sample_approve (sample_db "PENDING") = (db', None)
    /\ List.find (balance_of (sample_leave "PENDING")) (leave_balances db') = Some balance'
    /\ lb_ID balance' = "bal-1"%string
    /\ lb_UsedDays balance' = 2 + 3
    /\ lb_TotalDays balance' = Z.max 10 (2 + 3)
    /\ GetRemainingDays balance' = Z.max (lb_TotalDays balance' - lb_UsedDays balance') 0.
Proof.
  apply (ApproveLeave_debits_balance sample_env "leave-1" sample_approve
           (sample_db "PENDING") (sample_leave "PENDING") sample_balance).
  - intros s _. reflexivity.
  - reflexivity.
  - reflexivity.
  - vm_compute. reflexivity.
  - unfold in_int32. simpl. lia.
  - unfold in_int32. simpl. lia.
  - unfold in_int32. simpl. lia.
Defined.

Example approve_example :
  let db' := fst (ApproveLeave sample_env "leave-1" sample_approve (sample_db "PENDING")) in
  List.map lb_UsedDays (leave_balances db') = [5]
  /\ List.map GetRemainingDays (leave_balances db') = [5]
  /\ List.map lr_LeaveStatus (leaves db') = ["APPROVED"%string].
Proof. vm_compute. auto. Qed.

Ltac refused H :=
  let Hs := fresh in
  intros [Hs _]; rewrite Hs in H by (simpl; tauto); discriminate H.

(** ApproveLeave either completes every step, or returns an error and the
    database it was given. *)
Lemma ApproveLeave_outcome env id req db :
  (approval_succeeds env id db /\ exists db', ApproveLeave env id req db = (db', None))
  \/ (~ approval_succeeds env id db /\ exists err, ApproveLeave env id req db = (db, Some err)).
Proof.
  unfold ApproveLeave, Transaction.
  destruct (db_error env Begin) eqn:HB; [right; split; [refused HB|eauto]|].
  tx_unfold.
  destruct (db_error env SelectLeave) eqn:HS; [right; split; [refused HS|eauto]|].
  destruct (List.find (leave_with_id id) (leaves db)) as [leave|] eqn:Hf.
  2:{ right. split; [|eauto]. intros [_ (l & Hl & _)]. congruence. }
  destruct (String.eqb_spec (lr_LeaveStatus leave) "PENDING") as [Hst|Hst]; simpl.
  2:{ right. split; [|eauto]. intros [_ (l & Hl & Hp & _)]. congruence. }
  destruct (db_error env UpdateLeave) eqn:HU; simpl; [right; split; [refused HU|eauto]|].
  destruct (db_error env SelectBalance) eqn:HSB; simpl; [right; split; [refused HSB|eauto]|].
  fold (balance_of leave).
  destruct (List.find (balance_of leave) (leave_balances db)) as [balance|] eqn:Hb; simpl.
  2:{ right. split; [|eauto]. intros [_ (l & Hl & _ & b & Hb')].
      assert (l = leave) by congruence. subst l. congruence. }
  destruct (db_error env SaveBalance) eqn:HV; simpl; [right; split; [refused HV|eauto]|].
  destruct (db_error env Commit) eqn:HC; [right; split; [refused HC|eauto]|].
  left. split; [|eauto]. split.
  - intros s Hs. simpl in Hs. intuition (subst; assumption).
  - exists leave. repeat split; try assumption. exists balance. exact Hb.
Qed.

(** C3, as the code has it. ApproveLeave returns plain errors, which carry no
    status code of their own (their code is Unknown): for a request that
    does not exist the message is "leave request not found: record not
    found", for a request that is not PENDING the message names the current
    status; and whenever a step of the approval fails, an error is
    returned. *)
Theorem ApproveLeave_errors env id req db :
  (db_error env Begin = None -> db_error env SelectLeave = None ->
   List.find (leave_with_id id) (leaves db) = None ->
   exists err,
     ApproveLeave env id req db = (db, Some err)
     /\ Error err = "leave request not found: record not found"%string
     /\ status_Code err = Unknown)
  /\ (forall leave,
        db_error env Begin = None -> db_error env SelectLeave = None ->
        List.find (leave_with_id id) (leaves db) = Some leave ->
        lr_LeaveStatus leave <> "PENDING"%string ->
        exists err,
          ApproveLeave env id req db = (db, Some err)
          /\ Error err = ("cannot approve leave with status: " +:+ lr_LeaveStatus leave)
          /\ status_Code err = Unknown)
  /\ (~ approval_succeeds env id db ->
      exists err, ApproveLeave env id req db = (db, Some err)).
Proof.
  split; [|split].
  - intros HB HS Hf. eexists. split; [|split].
    + unfold ApproveLeave. eapply Transaction_fc_error; [exact HB|].
      apply approve_tx_missing; assumption.
    + reflexivity.
    + reflexivity.
  - intros leave HB HS Hf Hst. eexists. split; [|split].
    + unfold ApproveLeave. eapply Transaction_fc_error; [exact HB|].
      apply (approve_tx_not_pending env id req db leave); assumption.
    + reflexivity.
    + reflexivity.
  - intros Hno.
    destruct (ApproveLeave_outcome env id req db) as [[Hyes _]|[_ Herr]];
      [contradiction|exact Herr].
Qed.

Lemma ApproveLeave_errors_witness :
  (exists err,
     ApproveLeave sample_env "leave-404" sample_approve (sample_db "PENDING")
     = (sample_db "PENDING", Some err)
     /\ Error err = "leave request not found: record not found"%string
     /\ status_Code err = Unknown)
  /\ (exists err,
        ApproveLeave sample_env "leave-1" sample_approve (sample_db "REJECTED")
        = (sample_db "REJECTED", Some err)
        /\ Error err = "cannot approve leave with status: REJECTED"%string
        /\ status_Code err = Unknown).
Proof.
  split.
  - apply (proj1 (ApproveLeave_errors sample_env "leave-404" sample_approve
                    (sample_db "PENDING"))); reflexivity.
  - apply (proj1 (proj2 (ApproveLeave_errors sample_env "leave-1" sample_approve
                           (sample_db "REJECTED"))) (sample_leave "REJECTED")).
    + reflexivity.
    + reflexivity.
    + reflexivity.
    + simpl. discriminate.
Defined.

(** C3, as the specification words it, fails: the error for a missing
    request is not a NotFound error, and the error for a request that is
    not PENDING is not a FailedPrecondition error. *)
Lemma ApproveLeave_error_codes_counterexample :
  (exists err,
     snd (ApproveLeave sample_env "leave-404" sample_approve (sample_db "PENDING")) = Some err
     /\ status_Code err <> NotFound)
  /\ (exists err,
        snd (ApproveLeave sample_env "leave-1" sample_approve (sample_db "REJECTED")) = Some err
        /\ status_Code err <> FailedPrecondition).
Proof.
  split; eexists; (split; [vm_compute; reflexivity|simpl; discriminate]).
Qed.

Lemma leave_with_id_ID id leave : leave_with_id id leave = true -> lr_ID leave = id.
Proof.
  unfold leave_with_id. intros H. apply andb_prop in H as [H _].
  apply String.eqb_eq. exact H.
Qed.

(** The transaction function of RejectLeave never writes a balance row. *)
Lemma reject_tx_balances env id req db db1 r :
  reject_tx env id req db = (db1, r) -> leave_balances db1 = leave_balances db.
Proof.
  tx_unfold.
  destruct (db_error env SelectLeave); [intros [= <- _]; reflexivity|].
  destruct (List.find (leave_with_id id) (leaves db)) as [leave|];
    [|intros [= <- _]; reflexivity].
  destruct (negb (String.eqb (lr_LeaveStatus leave) "PENDING")); simpl;
    [intros [= <- _]; reflexivity|].
  destruct (db_error env UpdateLeave); intros [= <- _]; reflexivity.
Qed.

Lemma RejectLeave_balances env id req db :
  leave_balances (fst (RejectLeave env id req db)) = leave_balances db.
Proof.
  unfold RejectLeave, Transaction.
  destruct (db_error env Begin); [reflexivity|].
  destruct (reject_tx env id req db) as [db1 [e|u]] eqn:Htx; [reflexivity|].
  destruct (db_error env Commit); [reflexivity|].
  simpl. eapply reject_tx_balances. exact Htx.
Qed.

Lemma reject_tx_ok env id req db leave :
  db_error env SelectLeave = None -> db_error env UpdateLeave = None ->
  List.find (leave_with_id id) (leaves db) = Some leave ->
  lr_LeaveStatus leave = "PENDING"%string ->
  reject_tx env id req db
  = ({| leaves :=
          List.map (fun r => if leave_with_id id r
                             then set_columns env (reject_columns env req) r else r)
                   (leaves db);
        leave_balances := leave_balances db |}, inr tt).
Proof.
  intros HS HU Hf Hst. tx_unfold. rewrite HS, Hf, Hst. simpl. rewrite HU.
  rewrite (leave_with_id_ID id leave) by (eapply find_Some_holds; exact Hf).
  reflexivity.
Qed.

(** C4. Rejecting a PENDING request, every statement being executed,
    succeeds, sets its status to REJECTED, records the approver, the comments
    and the time of the call, and leaves the table of balances as it was:
    every balance row is identical before and after RejectLeave. *)
Theorem RejectLeave_rejects_and_keeps_balances env id req db leave :
  db_error env Begin = None -> db_error env SelectLeave = None ->
  db_error env UpdateLeave = None -> db_error env Commit = None ->
  List.find (leave_with_id id) (leaves db) = Some leave ->
  lr_LeaveStatus leave = "PENDING"%string ->
  exists db' leave',
    RejectLeave env id req db = (db', None)
    /\ leave_balances db' = leave_balances db
    /\ List.find (leave_with_id id) (leaves db') = Some leave'
    /\ lr_LeaveStatus leave' = "REJECTED"%string
    /\ lr_ApproverID leave' = Some (rr_ApproverID req)
    /\ lr_Comments leave' = rr_Comments req
    /\ lr_ApprovedAt leave' = Some (now env)
    /\ lr_EmployeeID leave' = lr_EmployeeID leave
    /\ lr_DaysRequested leave' = lr_DaysRequested leave.
Proof.
  intros HB HS HU HC Hf Hst.
  eexists. exists (set_columns env (reject_columns env req) leave).
  split; [|split; [|split]].
  - unfold RejectLeave. eapply Transaction_fc_ok; [exact HB|exact HC|].
    apply (reject_tx_ok env id req db leave); assumption.
  - reflexivity.
  - simpl. apply find_map_same; [|exact Hf].
    intros r. apply leave_with_id_set_columns.
  - repeat split.
Qed.

Lemma RejectLeave_rejects_and_keeps_balances_witness :
  exists db' leave',
    RejectLeave sample_env "leave-1" sample_reject (sample_db "PENDING") = (db', None)
    /\ leave_balances db' = [sample_balance]
    /\ List.find (leave_with_id "leave-1") (leaves db') = Some leave'
    /\ lr_LeaveStatus leave' = "REJECTED"%string
    /\ lr_ApproverID leave' = Some "mgr-7"%string
    /\ lr_Comments leave' = "busy period"%string
    /\ lr_ApprovedAt leave' = Some (Go.Date 2023 12 20)
    /\ lr_EmployeeID leave' = "emp-1"%string
    /\ lr_DaysRequested leave' = 3.
Proof.
  apply (RejectLeave_rejects_and_keeps_balances sample_env "leave-1" sample_reject
           (sample_db "PENDING") (sample_leave "PENDING")); reflexivity.
Defined.

(** *** The day count *)

Lemma calculateDaysRequested_duration (startDate endDate : Go.Time) :
  calculateDaysRequested startDate endDate = days_of_duration (Go.Sub endDate startDate).
Proof. reflexivity. Qed.

Lemma days_of_whole_hours (hour : Z) :
  days_of_hours hour 0
  = let days := Go.int_add (days_in_hours hour) 1 in if days <? 0 then 0 else days.
Proof. reflexivity. Qed.

Lemma sweep_sound (n : nat) :
  forall k, sweep n k = true ->
  forall j, k <= j < k + Z.of_nat n -> days_in_hours (24 * j) = j.
Proof.
  induction n as [|n IH]; intros k Hs j Hj.
  - lia.
  - simpl in Hs. apply andb_prop in Hs as [Hk Hrest].
    destruct (Z.eq_dec j k) as [->|Hne].
    + apply Z.eqb_eq. exact Hk.
    + apply (IH (k + 1) Hrest). lia.
Qed.

(** Every span of 0 to 106751 whole days, checked one by one. *)
Lemma sweep_all : sweep (Z.to_nat (max_span_days + 1)) 0 = true.
Proof. vm_cast_no_check (eq_refl true). Qed.

Lemma whole_days_hours (k : Z) :
  Z.quot (k * Go.nanos_per_day) Go.Hour = 24 * k /\ Z.rem (k * Go.nanos_per_day) Go.Hour = 0.
Proof.
  change Go.nanos_per_day with (24 * Go.Hour).
  replace (k * (24 * Go.Hour)) with (24 * k * Go.Hour) by ring.
  split; [apply Z.quot_mul|apply Z.rem_mul]; discriminate.
Qed.

Lemma days_of_whole_days (k : Z) :
  0 <= k <= max_span_days -> days_of_duration (k * Go.nanos_per_day) = k + 1.
Proof.
  intros Hk. unfold days_of_duration.
  destruct (whole_days_hours k) as [-> ->].
  rewrite days_of_whole_hours, (sweep_sound _ 0 sweep_all k)
    by (rewrite Z2Nat.id by (unfold max_span_days; lia); lia).
  unfold max_span_days in Hk. cbv zeta.
  rewrite wrap64_id_add by (unfold Go.min_int64, Go.max_int64; lia).
  destruct (Z.ltb_spec (k + 1) 0); lia.
Qed.

Lemma nanos_per_day_value : Go.nanos_per_day = 86400000000000.
Proof. reflexivity. Qed.

Lemma dates_differ_by_days (startDate endDate : Go.Time) :
  is_date startDate -> is_date endDate ->
  endDate - startDate = days_between startDate endDate * Go.nanos_per_day.
Proof.
  unfold is_date, days_between. rewrite nanos_per_day_value. intros Hs He.
  assert (Hm : (endDate - startDate) mod 86400000000000 = 0)
    by (rewrite Zminus_mod, Hs, He; reflexivity).
  pose proof (Z.div_mod (endDate - startDate) 86400000000000 ltac:(lia)) as Hd.
  lia.
Qed.

(** C5, as the code has it. For a create request whose start and end are
    calendar dates with end >= start, at most 106751 days apart (the longest
    span a Duration holds), the day count of the request built from it is
    (end - start in days) + 1 and is greater than 0. *)
Theorem FromCreateRequest_day_count (req : CreateLeaveRequestRequest) :
  is_date (cr_StartDate req) -> is_date (cr_EndDate req) ->
  cr_StartDate req <= cr_EndDate req ->
  days_between (cr_StartDate req) (cr_EndDate req) <= max_span_days ->
  lr_DaysRequested (FromCreateRequest req)
  = days_between (cr_StartDate req) (cr_EndDate req) + 1
  /\ 0 < lr_DaysRequested (FromCreateRequest req).
Proof.
  intros Hs He Hle Hmax. simpl.
  pose proof (dates_differ_by_days _ _ Hs He) as Hd.
  assert (Hk : 0 <= days_between (cr_StartDate req) (cr_EndDate req)).
  { unfold days_between. apply Z.div_pos; [lia|]. rewrite nanos_per_day_value. lia. }
  rewrite calculateDaysRequested_duration, Sub_in_range.
  - rewrite Hd, days_of_whole_days by lia. lia.
  - rewrite Hd. unfold max_span_days in Hmax. rewrite nanos_per_day_value.
    unfold Go.minDuration, Go.maxDuration, Go.min_int64, Go.max_int64. lia.
Qed.

(** The example of the specification: 2024-01-01 to 2024-01-03 is 3 days. *)
Lemma FromCreateRequest_day_count_witness :
  lr_DaysRequested (FromCreateRequest sample_create) = 2 + 1
  /\ 0 < lr_DaysRequested (FromCreateRequest sample_create).
Proof.
  apply (FromCreateRequest_day_count sample_create).
  - reflexivity.
  - reflexivity.
  - vm_compute. discriminate.
  - vm_compute. discriminate.
Defined.

(** Off midnight the float64 quotient can round up to the next day: 171 days
    less a nanosecond count as 172 days. *)
Example day_count_rounds_up :
  calculateDaysRequested 0 (171 * Go.nanos_per_day - 1) = 172
  /\ days_between 0 (171 * Go.nanos_per_day - 1) + 1 = 171.
Proof. vm_compute. auto. Qed.

(** C5, as the specification words it, fails once the dates are further
    apart than a Duration can hold: from 1700-01-01 to 2024-01-01 there are
    118338 days, the subtraction saturates and the day count is 106752. *)
Lemma FromCreateRequest_day_count_counterexample :
  is_date (cr_StartDate long_create) /\ is_date (cr_EndDate long_create)
  /\ cr_StartDate long_create <= cr_EndDate long_create
  /\ days_between (cr_StartDate long_create) (cr_EndDate long_create) + 1 = 118339
  /\ lr_DaysRequested (FromCreateRequest long_create) = 106752
  /\ lr_DaysRequested (FromCreateRequest long_create)
     <> days_between (cr_StartDate long_create) (cr_EndDate long_create) + 1.
Proof. vm_compute. repeat split; try reflexivity; discriminate. Qed.

(** *** Update *)

(** No UPDATE built from a column map touches days_requested. *)
Lemma Updates_keeps_day_count env s id m db db' r :
  Updates env s id m db = (db', r) ->
  List.map lr_DaysRequested (leaves db') = List.map lr_DaysRequested (leaves db).
Proof.
  unfold Updates. destruct (db_error env s); intros [= <- _]; [reflexivity|].
  simpl. rewrite List.map_map. apply List.map_ext.
  intros a. destruct (leave_with_id id a); reflexivity.
Qed.

Lemma Update_keeps_day_count env id req db :
  List.map lr_DaysRequested (leaves (fst (Update env id req db)))
  = List.map lr_DaysRequested (leaves db).
Proof.
  unfold Update. destruct (bool_decide _); [reflexivity|].
  destruct (Updates _ _ _ _ _) as [db' [e|u]] eqn:HU; [reflexivity|].
  simpl. eapply Updates_keeps_day_count. exact HU.
Qed.

(** The method on the struct, which the repository does not use, does
    recompute the day count when a date changes. *)
Lemma ApplyUpdate_recomputes (lr : LeaveRequest) (req : UpdateLeaveRequestRequest) :
  Go.IsZero (ur_StartDate req) = false \/ Go.IsZero (ur_EndDate req) = false ->
  lr_DaysRequested (ApplyUpdate lr req)
  = calculateDaysRequested (lr_StartDate (ApplyUpdate lr req)) (lr_EndDate (ApplyUpdate lr req)).
Proof.
  intros [H|H]; unfold ApplyUpdate; simpl; rewrite H; simpl;
    [|rewrite orb_true_r]; reflexivity.
Qed.

(** C6 fails on the code. Update of the repository moves the end date of the
    stored 2024-01-01..2024-01-03 request to 2024-01-05 and keeps the stored
    day count 3, where the inclusive span is 5 (and where ApplyUpdate,
    given the same request, stores 5). *)
Theorem Update_leaves_day_count_stale :
  let result := Update sample_env "leave-1" extend_end (sample_db "PENDING") in
  snd result = None
  /\ List.map lr_ID (leaves (fst result)) = ["leave-1"%string]
  /\ List.map lr_StartDate (leaves (fst result)) = [Go.Date 2024 1 1]
  /\ List.map lr_EndDate (leaves (fst result)) = [Go.Date 2024 1 5]
  /\ List.map lr_DaysRequested (leaves (fst result)) = [3]
  /\ List.map (fun r => days_between (lr_StartDate r) (lr_EndDate r) + 1) (leaves (fst result))
     = [5]
  /\ lr_DaysRequested (ApplyUpdate (sample_leave "PENDING") extend_end) = 5.
Proof. vm_compute. repeat split. Qed.

(** *** The authentication interceptor *)

(** What AuthFunc accepts, read off the code. *)
Lemma AuthFunc_accepts (ctx ctx' : Context) :
  AuthFunc ctx = inr ctx' <->
  exists md authHeader rest,
    incoming ctx = Some md
    /\ md !! "authrorization"%string = Some (authHeader :: rest)
    /\ HasPrefix authHeader "Bearer" = true
    /\ TrimPrefix authHeader "Bearer " <> ""%string
    /\ ctx' = WithValue ctx (AContextKey "token") (AString (TrimPrefix authHeader "Bearer ")).
Proof.
  unfold AuthFunc. split.
  - destruct (incoming ctx) as [md|]; [|discriminate].
    destruct (md !! "authrorization"%string) as [[|h rest]|] eqn:Hmd; simpl; try discriminate.
    destruct (HasPrefix h "Bearer") eqn:Hp; simpl; [|discriminate].
    destruct (String.eqb_spec (TrimPrefix h "Bearer ") ""); [discriminate|].
    intros [= <-]. exists md, h, rest. auto.
  - intros (md & h & rest & -> & -> & Hp & Ht & ->). simpl. rewrite Hp. simpl.
    destruct (String.eqb_spec (TrimPrefix h "Bearer ") ""); [contradiction|reflexivity].
Qed.

(** Every rejection of AuthFunc is an Unauthenticated status error. *)
Lemma AuthFunc_rejects_Unauthenticated (ctx : Context) (err : error) :
  AuthFunc ctx = inl err -> status_Code err = Unauthenticated.
Proof.
  unfold AuthFunc.
  destruct (incoming ctx) as [md|]; [|intros [= <-]; reflexivity].
  destruct (default [] (md !! "authrorization"%string)) as [|h rest];
    [intros [= <-]; reflexivity|].
  destruct (HasPrefix h "Bearer"); simpl; [|intros [= <-]; reflexivity].
  destruct (String.eqb (TrimPrefix h "Bearer ") ""); [intros [= <-]; reflexivity|discriminate].
Qed.

(** C7 fails on the code, in three places.  (1) The header is read under the
    key "authrorization": a call carrying the well-formed credential
    "authorization: Bearer abc" is rejected and its handler never runs.
    (2) The format test looks for "Bearer" without the space: the malformed
    header "Bearerabc" is accepted, and the handler runs with the token
    "Bearerabc".  (3) The allow-list spells the token-refresh method
    "AuthServce": a token-refresh call does not bypass the check (login
    does). *)
Theorem UnaryAuthInterceptor_divergences (req : any) (handler : UnaryHandler) :
  (SkipAuth (FullMethod GetEmployee) = false
   /\ UnaryAuthInterceptor (ctx_with_header "authorization" "Bearer abc") req GetEmployee handler
      = Returned (Nil, Some (StatusError Unauthenticated "missing authorization header")))
  /\ UnaryAuthInterceptor (ctx_with_header "authrorization" "Bearerabc") req GetEmployee handler
     = handler (WithValue (ctx_with_header "authrorization" "Bearerabc")
                          (AContextKey "token") (AString "Bearerabc")) req
  /\ (SkipAuth (FullMethod RefreshToken) = false
      /\ UnaryAuthInterceptor empty_ctx req RefreshToken handler
         = Returned (Nil, Some (StatusError Unauthenticated "missing metadata"))
      /\ UnaryAuthInterceptor empty_ctx req Login handler = handler empty_ctx req).
Proof. repeat split. Qed.

Lemma Value_WithValue_other (ctx : Context) (key key' val : any) :
  key <> key' -> Value (WithValue ctx key val) key' = Value ctx key'.
Proof.
  intros Hne. unfold Value, WithValue. simpl.
  rewrite bool_decide_eq_false_2 by exact Hne. reflexivity.
Qed.

Lemma Value_WithValue_same (ctx : Context) (key val : any) :
  Value (WithValue ctx key val) key = val.
Proof.
  unfold Value, WithValue. simpl.
  rewrite bool_decide_eq_true_2 by reflexivity. reflexivity.
Qed.

(** AuthFunc does not change what GetTokenFromContext finds. *)
Lemma GetTokenFromContext_AuthFunc (ctx ctx' : Context) :
  AuthFunc ctx = inr ctx' -> GetTokenFromContext ctx' = GetTokenFromContext ctx.
Proof.
  intros H. apply AuthFunc_accepts in H as (md & h & rest & _ & _ & _ & _ & ->).
  unfold GetTokenFromContext. rewrite Value_WithValue_other by discriminate. reflexivity.
Qed.

(** C10, as the code has it. When AuthFunc accepts a context on which
    GetTokenFromContext finds no token, it stores the non-empty token under
    the key contextKey("token"), and GetTokenFromContext, which looks under
    the string key "token", still finds none on the context returned. *)
Theorem GetTokenFromContext_misses_token (ctx ctx' : Context) :
  AuthFunc ctx = inr ctx' ->
  GetTokenFromContext ctx = (""%string, false) ->
  (exists token, token <> ""%string /\ Value ctx' (AContextKey "token") = AString token)
  /\ GetTokenFromContext ctx' = (""%string, false).
Proof.
  intros Hauth Hnone. split.
  - apply AuthFunc_accepts in Hauth as (md & h & rest & _ & _ & _ & Hne & ->).
    exists (TrimPrefix h "Bearer "). split; [exact Hne|apply Value_WithValue_same].
  - rewrite (GetTokenFromContext_AuthFunc _ _ Hauth). exact Hnone.
Qed.

Lemma GetTokenFromContext_misses_token_witness :
  (exists token, token <> ""%string
     /\ Value (WithValue (ctx_with_header "authrorization" "Bearer abc")
                         (AContextKey "token") (AString "abc"))
              (AContextKey "token") = AString token)
  /\ GetTokenFromContext (WithValue (ctx_with_header "authrorization" "Bearer abc")
                                    (AContextKey "token") (AString "abc"))
     = (""%string, false).
Proof.
  apply (GetTokenFromContext_misses_token (ctx_with_header "authrorization" "Bearer abc")).
  - reflexivity.
  - reflexivity.
Defined.

(** C10, as the specification words it, fails: AuthFunc accepts this
    context, and GetTokenFromContext on the context it returns finds
    ("earlier", true), not ("", false). *)
Lemma GetTokenFromContext_counterexample :
  exists ctx',
    AuthFunc ctx_with_plain_token = inr ctx'
    /\ GetTokenFromContext ctx' = ("earlier"%string, true)
    /\ GetTokenFromContext ctx' <> (""%string, false).
Proof.
  eexists. split; [reflexivity|]. split; [reflexivity|discriminate].
Qed.

(** *** The recovery interceptor *)

Lemma recover_Panicked {A} (v : any) : recover (@Panicked A v) <> Nil.
Proof. destruct v; discriminate. Qed.

(** C8. RecoveryInterceptor always returns: when the handler panics, with
    whatever value, the call returns the nil response and the Internal
    error "internal server error" (the value of the panic goes to the log
    only); when the handler returns, the call returns what the handler
    returned and logs nothing. *)
Theorem RecoveryInterceptor_contains_panics
  (log : list LogEntry) (ctx : Context) (req : any) (info : UnaryServerInfo)
  (handler : UnaryHandler) :
  (exists r, snd (RecoveryInterceptor log ctx req info handler) = Returned r)
  /\ match handler ctx req with
     | Panicked v =>
         snd (RecoveryInterceptor log ctx req info handler)
         = Returned (Nil, Some (StatusError Internal "internal server error"))
         /\ exists entry, fst (RecoveryInterceptor log ctx req info handler) = log ++ [entry]
     | Returned r =>
         RecoveryInterceptor log ctx req info handler = (log, Returned r)
     end.
Proof.
  unfold RecoveryInterceptor.
  destruct (handler ctx req) as [[resp err]|v] eqn:Hcall.
  - rewrite bool_decide_eq_false_2 by (intros H; apply H; reflexivity).
    split; [eexists|]; reflexivity.
  - rewrite bool_decide_eq_true_2 by apply recover_Panicked.
    simpl. split; [eexists; reflexivity|]. split; [reflexivity|eexists; reflexivity].
Qed.

Example RecoveryInterceptor_panic :
  RecoveryInterceptor [] (ctx_with_header "authrorization" "Bearer abc") Nil GetEmployee
    (fun _ _ => Panicked (AString "secret: db password"))
  = ([ {| level := "error"; message := "Panic recovered";
          fields := <["method" := AString "/hr.employee.v1.EmployeeService/GetEmployee"]>
                    (<["panic" := AString "secret: db password"]> ∅) |} ],
     Returned (Nil, Some (StatusError Internal "internal server error"))).
Proof. reflexivity. Qed.

(** *** Request identifiers *)

Lemma get_in_range (s : string) :
  forall n, (n < String.length s)%nat -> exists c, String.get n s = Some c.
Proof.
  induction s as [|a s IH]; intros n Hn; simpl in *; [lia|].
  destruct n as [|n]; [eauto|]. apply IH. lia.
Qed.

Lemma charset_at_rem (x : Z) :
  0 <= x -> exists c, charset_at (Z.rem x (Z.of_nat (String.length charset))) = Some c.
Proof.
  intros Hx. unfold charset_at.
  change (Z.of_nat (String.length charset)) with 62.
  pose proof (Z.rem_bound_pos x 62 Hx ltac:(lia)) as Hr.
  destruct (Z.ltb_spec (Z.rem x 62) 0); [lia|].
  apply get_in_range. change (String.length charset) with 62%nat. lia.
Qed.

Lemma randomString_loop_step (clock : nat -> Z) (n0 a n : nat) (b : list Ascii.ascii) :
  randomString_loop clock n0 (seq a (S n)) b
  = match charset_at (Z.rem (clock (n0 + a)%nat) (Z.of_nat (String.length charset))) with
    | None =>
        Panicked (ARuntimeError
                    (IndexOutOfRange (Z.rem (clock (n0 + a)%nat)
                                            (Z.of_nat (String.length charset)))
                                     (Z.of_nat (String.length charset))))
    | Some c =>
        if (a <? length b)%nat then randomString_loop clock n0 (seq (S a) n) (<[a := c]> b)
        else Panicked (ARuntimeError (IndexOutOfRange (Z.of_nat a) (Z.of_nat (length b))))
    end.
Proof. reflexivity. Qed.

(** A loop that is to pass the end of the buffer panics. *)
Lemma randomString_loop_panics (clock : nat -> Z) (n0 n : nat) :
  forall a b, (a <= length b)%nat -> (length b < a + n)%nat ->
  exists v, randomString_loop clock n0 (seq a n) b = Panicked v.
Proof.
  induction n as [|n IH]; intros a b Ha Hb; [lia|]. rewrite randomString_loop_step.
  destruct (charset_at _) as [c|]; [|eauto].
  destruct (Nat.ltb_spec a (length b)) as [Hlt|Hge]; [|eauto].
  apply IH; rewrite length_insert; lia.
Qed.

(** With the clock after 1970 the panic is the store at the index equal to
    the length of the buffer. *)
Lemma randomString_loop_panics_at (clock : nat -> Z) (n0 n : nat) :
  (forall i, 0 <= clock i) ->
  forall a b, (a <= length b)%nat -> (length b < a + n)%nat ->
  randomString_loop clock n0 (seq a n) b
  = Panicked (ARuntimeError (IndexOutOfRange (Z.of_nat (length b)) (Z.of_nat (length b)))).
Proof.
  intros Hclock. induction n as [|n IH]; intros a b Ha Hb; [lia|].
  rewrite randomString_loop_step.
  destruct (charset_at_rem (clock (n0 + a)%nat) (Hclock _)) as [c ->].
  destruct (Nat.ltb_spec a (length b)) as [Hlt|Hge].
  - rewrite IH by (rewrite length_insert; lia). rewrite length_insert. reflexivity.
  - replace a with (length b) by lia. reflexivity.
Qed.

(** C9. randomString walks the 62 indices of the charset over a buffer of
    the requested length: for every length below 62 it panics, and (the
    length not negative, the clock after 1970) the panic is the store at the
    index equal to the length of the buffer; so randomString(8),
    generateRequestID, and getRequestID on a context without a "request_id"
    value all panic instead of returning an identifier. *)
Theorem randomString_short_buffer_panics
  (clock : nat -> Z) (Format_20060102150405 : Z -> string) (n0 : nat) (length : Z)
  (ctx : Context) :
  length < 62 ->
  (exists v, randomString clock n0 length = Panicked v)
  /\ (0 <= length -> (forall i, 0 <= clock i) ->
      randomString clock n0 length = Panicked (ARuntimeError (IndexOutOfRange length length)))
  /\ (exists v, randomString clock n0 8 = Panicked v)
  /\ (exists v, generateRequestID clock Format_20060102150405 = Panicked v)
  /\ (Value ctx (AString "request_id") = Nil ->
      exists v, getRequestID clock Format_20060102150405 ctx = Panicked v).
Proof.
  intros Hlen.
  assert (Hshort : forall m l, l < 62 -> exists v, randomString clock m l = Panicked v).
  { intros m l Hl. unfold randomString.
    destruct (Z.ltb_spec l 0); [eauto|].
    destruct (randomString_loop_panics clock m (String.length charset) 0
                (List.repeat Ascii.zero (Z.to_nat l))) as [v Hv].
    - lia.
    - rewrite List.repeat_length. change (String.length charset) with 62%nat. lia.
    - rewrite Hv. eauto. }
  assert (Hgen : exists v, generateRequestID clock Format_20060102150405 = Panicked v).
  { unfold generateRequestID. destruct (Hshort 1%nat 8 ltac:(lia)) as [v ->]. eauto. }
  split; [|split; [|split; [|split]]].
  - apply Hshort. exact Hlen.
  - intros Hpos Hclock. unfold randomString.
    destruct (Z.ltb_spec length 0); [lia|].
    rewrite randomString_loop_panics_at.
    + rewrite List.repeat_length, Z2Nat.id by lia. reflexivity.
    + exact Hclock.
    + lia.
    + rewrite List.repeat_length. change (String.length charset) with 62%nat. lia.
  - apply Hshort. lia.
  - exact Hgen.
  - intros Hnil. unfold getRequestID. rewrite Hnil. exact Hgen.
Qed.

Lemma randomString_short_buffer_panics_witness :
  randomString sample_clock 1 8 = Panicked (ARuntimeError (IndexOutOfRange 8 8))
  /\ (exists v, generateRequestID sample_clock sample_Format = Panicked v)
  /\ (exists v, getRequestID sample_clock sample_Format empty_ctx = Panicked v).
Proof.
  destruct (randomString_short_buffer_panics sample_clock sample_Format 1 8 empty_ctx)
    as (_ & Hat & _ & Hgen & Hget).
  - lia.
  - split; [|split].
    + apply Hat; [lia|]. intros i. unfold sample_clock. lia.
    + exact Hgen.
    + apply Hget. reflexivity.
Defined.

Example randomString_62_returns :
  randomString sample_clock 0 62
  = Returned "AIQY6emuCKS08gowEMU2aiqyGOW4cksAIQY6emuCKS08gowEMU2aiqyGOW4cks"%string.
Proof. vm_compute. reflexivity. Qed.

(* ===================================================================== *)
(** ** Further properties of the leave repository                        *)
(* ===================================================================== *)

Lemma DB_eta (db : DB) :
  {| leaves := leaves db; leave_balances := leave_balances db |} = db.
Proof. destruct db. reflexivity. Qed.

Lemma map_if_id {R} (Q : R -> bool) (F : R -> R) (l : list R) :
  (forall r, In r l -> Q r = false) ->
  List.map (fun r => if Q r then F r else r) l = l.
Proof.
  induction l as [|a l IH]; intros H; simpl; [reflexivity|].
  rewrite (H a) by (left; reflexivity). f_equal. apply IH.
  intros r Hr. apply H. right. exact Hr.
Qed.

Lemma find_none_all {R} (P : R -> bool) (l : list R) :
  List.find P l = None -> forall r, In r l -> P r = false.
Proof. intros H r Hr. exact (List.find_none P l H r Hr). Qed.

Lemma find_none_intro {R} (P : R -> bool) (l : list R) :
  (forall r, In r l -> P r = false) -> List.find P l = None.
Proof.
  induction l as [|a l IH]; intros H; simpl; [reflexivity|].
  rewrite (H a) by (left; reflexivity). apply IH.
  intros r Hr. apply H. right. exact Hr.
Qed.

Lemma lookup_map_if {R} (Q : R -> bool) (F : R -> R) (l : list R) (i : nat) (r : R) :
  l !! i = Some r -> Q r = false ->
  List.map (fun r => if Q r then F r else r) l !! i = Some r.
Proof.
  intros Hl Hq. change (List.map ?f l) with (f <$> l).
  rewrite list_lookup_fmap, Hl. simpl. rewrite Hq. reflexivity.
Qed.

(** The database a successful approval leaves. *)
Lemma ApproveLeave_success env id req db leave balance :
  (forall s, In s approval_stmts -> db_error env s = None) ->
  List.find (leave_with_id id) (leaves db) = Some leave ->
  lr_LeaveStatus leave = "PENDING"%string ->
  List.find (balance_of leave) (leave_balances db) = Some balance ->
  ApproveLeave env id req db
  = ({| leaves :=
          List.map (fun r => if leave_with_id id r
                             then set_columns env (approve_columns env req) r else r)
                   (leaves db);
        leave_balances :=
          List.map (fun r => if balance_with_id (lb_ID balance) r
                             then saved_balance env (debited leave balance) r else r)
                   (leave_balances db) |}, None).
Proof.
  intros Hok Hf Hst Hb. unfold ApproveLeave.
  pose proof (leave_with_id_ID id leave (find_Some_holds _ _ _ Hf)) as Hid.
  eapply Transaction_fc_ok.
  - apply Hok. simpl. tauto.
  - apply Hok. simpl. tauto.
  - rewrite (approve_tx_ok env id req db leave balance), Hid; try assumption;
      try reflexivity; apply Hok; simpl; tauto.
Qed.

(** X1. ApproveLeave returns nil exactly when every step goes through (the
    six statements are executed, the request exists and is PENDING, its
    balance row exists), and then both rows are written; in every other case
    it returns an error and the database is the one it was given. *)
Theorem ApproveLeave_all_or_nothing env id req db :
  match ApproveLeave env id req db with
  | (db', None) =>
      approval_succeeds env id db
      /\ exists leave balance,
           List.find (leave_with_id id) (leaves db) = Some leave
           /\ List.find (balance_of leave) (leave_balances db) = Some balance
           /\ leaves db'
              = List.map (fun r => if leave_with_id id r
                                   then set_columns env (approve_columns env req) r else r)
                         (leaves db)
           /\ leave_balances db'
              = List.map (fun r => if balance_with_id (lb_ID balance) r
                                   then saved_balance env (debited leave balance) r else r)
                         (leave_balances db)
  | (db', Some _) => ~ approval_succeeds env id db /\ db' = db
  end.
Proof.
  destruct (ApproveLeave_outcome env id req db) as [[Hyes _]|[Hno [err Herr]]].
  - pose proof Hyes as [Hok (leave & Hf & Hst & balance & Hb)].
    rewrite (ApproveLeave_success env id req db leave balance Hok Hf Hst Hb).
    split; [exact Hyes|]. exists leave, balance. repeat split; assumption.
  - rewrite Herr. split; [exact Hno|reflexivity].
Qed.

(** X2. When the balance row of a PENDING request is missing, the status
    update that the transaction had already made is rolled back: ApproveLeave
    returns "failed to fetch leave balance: record not found", the database
    is unchanged and the request is still PENDING, although the transaction
    function had set it to APPROVED. *)
Theorem ApproveLeave_missing_balance_rolls_back env id req db leave :
  db_error env Begin = None -> db_error env SelectLeave = None ->
  db_error env UpdateLeave = None -> db_error env SelectBalance = None ->
  List.find (leave_with_id id) (leaves db) = Some leave ->
  lr_LeaveStatus leave = "PENDING"%string ->
  List.find (balance_of leave) (leave_balances db) = None ->
  (exists err,
     ApproveLeave env id req db = (db, Some err)
     /\ Error err = "failed to fetch leave balance: record not found"%string)
  /\ (exists written,
        List.find (leave_with_id id) (leaves (fst (approve_tx env id req db))) = Some written
        /\ lr_LeaveStatus written = "APPROVED"%string).
Proof.
  intros HB HS HU HSB Hf Hst Hb.
  assert (Htx : approve_tx env id req db
                = ({| leaves :=
                        List.map (fun r => if leave_with_id id r
                                           then set_columns env (approve_columns env req) r
                                           else r) (leaves db);
                      leave_balances := leave_balances db |},
                   inl (Errorf_w "failed to fetch leave balance: " ErrRecordNotFound))).
  { tx_unfold. rewrite HS, Hf, Hst. simpl. rewrite HU. simpl. rewrite HSB.
    unfold balance_of in Hb. rewrite Hb.
    rewrite (leave_with_id_ID id leave) by (eapply find_Some_holds; exact Hf).
    reflexivity. }
  split.
  - eexists. split.
    + unfold ApproveLeave. eapply Transaction_fc_error; [exact HB|exact Htx].
    + reflexivity.
  - exists (set_columns env (approve_columns env req) leave). rewrite Htx. simpl. split.
    + apply find_map_same; [|exact Hf]. intros r. apply leave_with_id_set_columns.
    + reflexivity.
Qed.

Lemma ApproveLeave_missing_balance_rolls_back_witness :
  (exists err,
     ApproveLeave sample_env "leave-1" sample_approve db_without_balance
     = (db_without_balance, Some err)
     /\ Error err = "failed to fetch leave balance: record not found"%string)
  /\ (exists written,
        List.find (leave_with_id "leave-1")
                  (leaves (fst (approve_tx sample_env "leave-1" sample_approve
                                           db_without_balance))) = Some written
        /\ lr_LeaveStatus written = "APPROVED"%string).
Proof.
  apply (ApproveLeave_missing_balance_rolls_back sample_env "leave-1" sample_approve
           db_without_balance (sample_leave "PENDING")); reflexivity.
Defined.

(** X3. A successful approval records the decision on the request and
    nothing else: read back, the request is APPROVED with the approver, the
    comments and the time of the call, and its employee, type, dates, day
    count and reason are what they were. *)
Theorem ApproveLeave_records_decision env id req db leave balance :
  (forall s, In s approval_stmts -> db_error env s = None) ->
  List.find (leave_with_id id) (leaves db) = Some leave ->
  lr_LeaveStatus leave = "PENDING"%string ->
  List.find (balance_of leave) (leave_balances db) = Some balance ->
  exists db' leave',
    ApproveLeave env id req db = (db', None)
    /\ List.find (leave_with_id id) (leaves db') = Some leave'
    /\ lr_LeaveStatus leave' = "APPROVED"%string
    /\ lr_ApproverID leave' = Some (ar_ApproverID req)
    /\ lr_Comments leave' = ar_Comments req
    /\ lr_ApprovedAt leave' = Some (now env)
    /\ lr_UpdatedAt leave' = now env
    /\ lr_ID leave' = lr_ID leave
    /\ lr_EmployeeID leave' = lr_EmployeeID leave
    /\ lr_LeaveType leave' = lr_LeaveType leave
    /\ lr_StartDate leave' = lr_StartDate leave
    /\ lr_EndDate leave' = lr_EndDate leave
    /\ lr_DaysRequested leave' = lr_DaysRequested leave
    /\ lr_Reason leave' = lr_Reason leave.
Proof.
  intros Hok Hf Hst Hb.
  eexists. exists (set_columns env (approve_columns env req) leave).
  split; [exact (ApproveLeave_success env id req db leave balance Hok Hf Hst Hb)|].
  split.
  - simpl. apply find_map_same; [|exact Hf]. intros r. apply leave_with_id_set_columns.
  - repeat split.
Qed.

Lemma ApproveLeave_records_decision_witness :
  exists db' leave',
    ApproveLeave sample_env "leave-1" sample_approve (sample_db "PENDING") = (db', None)
    /\ List.find (leave_with_id "leave-1") (leaves db') = Some leave'
    /\ lr_LeaveStatus leave' = "APPROVED"%string
    /\ lr_ApproverID leave' = Some "mgr-7"%string
    /\ lr_Comments leave' = "ok"%string
    /\ lr_ApprovedAt leave' = Some (Go.Date 2023 12 20)
    /\ lr_UpdatedAt leave' = Go.Date 2023 12 20
    /\ lr_ID leave' = "leave-1"%string
    /\ lr_EmployeeID leave' = "emp-1"%string
    /\ lr_LeaveType leave' = "ANNUAL"%string
    /\ lr_StartDate leave' = Go.Date 2024 1 1
    /\ lr_EndDate leave' = Go.Date 2024 1 3
    /\ lr_DaysRequested leave' = 3
    /\ lr_Reason leave' = "family"%string.
Proof.
  apply (ApproveLeave_records_decision sample_env "leave-1" sample_approve
           (sample_db "PENDING") (sample_leave "PENDING") sample_balance).
  - intros s _. reflexivity.
  - reflexivity.
  - reflexivity.
  - vm_compute. reflexivity.
Defined.

Lemma leave_with_id_other id r : lr_ID r <> id -> leave_with_id id r = false.
Proof.
  intros H. unfold leave_with_id.
  rewrite (proj2 (String.eqb_neq _ _) H). reflexivity.
Qed.

Lemma balance_with_id_other id b : lb_ID b <> id -> balance_with_id id b = false.
Proof.
  intros H. unfold balance_with_id.
  rewrite (proj2 (String.eqb_neq _ _) H). reflexivity.
Qed.

(** X4. A successful approval writes two rows and no other: no row is added
    or removed, every request with another id and every balance row with
    another primary key than the one debited is exactly as before. *)
Theorem ApproveLeave_touches_two_rows env id req db db' :
  ApproveLeave env id req db = (db', None) ->
  length (leaves db') = length (leaves db)
  /\ length (leave_balances db') = length (leave_balances db)
  /\ (forall i r, leaves db !! i = Some r -> lr_ID r <> id -> leaves db' !! i = Some r)
  /\ exists leave balance,
       List.find (leave_with_id id) (leaves db) = Some leave
       /\ List.find (balance_of leave) (leave_balances db) = Some balance
       /\ forall i b, leave_balances db !! i = Some b -> lb_ID b <> lb_ID balance ->
                      leave_balances db' !! i = Some b.
Proof.
  intros Hres.
  destruct (ApproveLeave_outcome env id req db) as [[Hyes _]|[_ [err Herr]]];
    [|congruence].
  destruct Hyes as [Hok (leave & Hf & Hst & balance & Hb)].
  rewrite (ApproveLeave_success env id req db leave balance Hok Hf Hst Hb) in Hres.
  injection Hres as <-. simpl.
  split; [apply List.length_map|]. split; [apply List.length_map|]. split.
  - intros i r Hi Hne. apply lookup_map_if; [exact Hi|].
    apply leave_with_id_other. exact Hne.
  - exists leave, balance. split; [exact Hf|]. split; [exact Hb|].
    intros i b Hi Hne. apply lookup_map_if; [exact Hi|].
    apply balance_with_id_other. exact Hne.
Qed.

Lemma ApproveLeave_touches_two_rows_witness :
  length (leaves (fst (ApproveLeave sample_env "leave-1" sample_approve two_employees_db)))
  = 2%nat
  /\ leaves (fst (ApproveLeave sample_env "leave-1" sample_approve two_employees_db)) !! 1%nat
     = Some other_leave.
Proof.
  destruct (ApproveLeave_touches_two_rows sample_env "leave-1" sample_approve two_employees_db
              (fst (ApproveLeave sample_env "leave-1" sample_approve two_employees_db)))
    as (Hlen & _ & Hframe & _).
  - vm_compute. reflexivity.
  - split; [exact Hlen|]. apply Hframe; [reflexivity|]. simpl. discriminate.
Defined.

Lemma GetRemainingDays_int32 (lb : LeaveBalance) :
  in_int32 (lb_TotalDays lb) -> in_int32 (lb_UsedDays lb) ->
  GetRemainingDays lb = Z.max (lb_TotalDays lb - lb_UsedDays lb) 0.
Proof.
  unfold in_int32. change (2 ^ 31) with 2147483648. intros HT HU.
  apply GetRemainingDays_max. unfold Go.in_int64, Go.min_int64, Go.max_int64. lia.
Qed.

(** X5. ApproveLeave never refuses an approval for lack of balance. For a
    balance row within the table's constraints (used <= total, INTEGER
    columns) and a day count D >= 0: when HasSufficientBalance holds, the
    total stays and the remaining days drop by exactly D; when it does not,
    the approval succeeds all the same, the total is raised to the new used
    days and the remaining days are 0. In both cases used <= total after
    the call. *)
Theorem ApproveLeave_extends_allotment env id req db leave balance :
  (forall s, In s approval_stmts -> db_error env s = None) ->
  List.find (leave_with_id id) (leaves db) = Some leave ->
  lr_LeaveStatus leave = "PENDING"%string ->
  List.find (balance_of leave) (leave_balances db) = Some balance ->
  in_int32 (lr_DaysRequested leave) ->
  in_int32 (lb_TotalDays balance) ->
  in_int32 (lb_UsedDays balance) ->
  0 <= lr_DaysRequested leave ->
  lb_UsedDays balance <= lb_TotalDays balance ->
  exists db' balance',
    ApproveLeave env id req db = (db', None)
    /\ List.find (balance_of leave) (leave_balances db') = Some balance'
    /\ lb_UsedDays balance' <= lb_TotalDays balance'
    /\ (HasSufficientBalance balance (lr_DaysRequested leave) = true ->
        lb_TotalDays balance' = lb_TotalDays balance
        /\ GetRemainingDays balance' = GetRemainingDays balance - lr_DaysRequested leave)
    /\ (HasSufficientBalance balance (lr_DaysRequested leave) = false ->
        lb_TotalDays balance' = lb_UsedDays balance + lr_DaysRequested leave
        /\ lb_UsedDays balance' = lb_UsedDays balance + lr_DaysRequested leave
        /\ GetRemainingDays balance' = 0).
Proof.
  intros Hok Hf Hst Hb HD HT HU HD0 HUT.
  assert (Hkey : balance_of leave balance = true) by (eapply find_Some_holds; exact Hb).
  destruct (find_map_other (balance_of leave) (balance_with_id (lb_ID balance))
              (saved_balance env (debited leave balance)) (leave_balances db) balance)
    as [old Hold].
  { intros r. apply balance_of_saved. exact Hkey. }
  { exact Hb. }
  { eapply balance_of_with_id. exact Hkey. }
  set (b' := saved_balance env (debited leave balance) old).
  assert (Hused : lb_UsedDays b' = lb_UsedDays balance + lr_DaysRequested leave)
    by (simpl; apply int_add_int32; assumption).
  assert (Htotal : lb_TotalDays b'
                   = Z.max (lb_TotalDays balance)
                           (lb_UsedDays balance + lr_DaysRequested leave))
    by (simpl; rewrite max_Zmax, int_add_int32 by assumption; reflexivity).
  assert (Hrem : GetRemainingDays balance = lb_TotalDays balance - lb_UsedDays balance)
    by (rewrite GetRemainingDays_int32 by assumption; lia).
  assert (Hrem' : GetRemainingDays b' = Z.max (lb_TotalDays b' - lb_UsedDays b') 0).
  { apply GetRemainingDays_max. rewrite Hused, Htotal.
    unfold in_int32 in *. change (2 ^ 31) with 2147483648 in *.
    unfold Go.in_int64, Go.min_int64, Go.max_int64. lia. }
  eexists. exists b'.
  split; [exact (ApproveLeave_success env id req db leave balance Hok Hf Hst Hb)|].
  split; [exact Hold|]. split; [lia|].
  unfold HasSufficientBalance. rewrite Hrem, Hrem', Hused, Htotal. split.
  - intros Hs. apply Z.leb_le in Hs. lia.
  - intros Hs. apply Z.leb_gt in Hs. lia.
Qed.

(** The second employee has 1 day left and asks for 2: total 5 becomes 6. *)
Lemma ApproveLeave_extends_allotment_witness :
  exists db' balance',
    ApproveLeave sample_env "leave-2" sample_approve two_employees_db = (db', None)
    /\ List.find (balance_of other_leave) (leave_balances db') = Some balance'
    /\ lb_TotalDays balance' = 4 + 2
    /\ lb_UsedDays balance' = 4 + 2
    /\ GetRemainingDays balance' = 0.
Proof.
  destruct (ApproveLeave_extends_allotment sample_env "leave-2" sample_approve
              two_employees_db other_leave other_balance)
    as (db' & b' & Hres & Hfind & _ & _ & Hins).
  - intros s _. reflexivity.
  - reflexivity.
  - reflexivity.
  - vm_compute. reflexivity.
  - unfold in_int32. simpl. lia.
  - unfold in_int32. simpl. lia.
  - unfold in_int32. simpl. lia.
  - simpl. lia.
  - simpl. lia.
  - exists db', b'. split; [exact Hres|]. split; [exact Hfind|].
    apply Hins. vm_compute. reflexivity.
Defined.

(** RejectLeave either completes every step, or returns an error and the
    database it was given. *)
Lemma RejectLeave_outcome env id req db :
  (rejection_succeeds env id db
   /\ exists leave,
        List.find (leave_with_id id) (leaves db) = Some leave
        /\ RejectLeave env id req db
           = ({| leaves :=
                   List.map (fun r => if leave_with_id id r
                                      then set_columns env (reject_columns env req) r else r)
                            (leaves db);
                 leave_balances := leave_balances db |}, None))
  \/ (~ rejection_succeeds env id db /\ exists err, RejectLeave env id req db = (db, Some err)).
Proof.
  unfold RejectLeave, Transaction.
  destruct (db_error env Begin) eqn:HB; [right; split; [refused HB|eauto]|].
  destruct (db_error env SelectLeave) eqn:HS.
  { right. split; [refused HS|]. tx_unfold. rewrite HS. eauto. }
  destruct (List.find (leave_with_id id) (leaves db)) as [leave|] eqn:Hf.
  2:{ right. split; [intros [_ (l & Hl & _)]; congruence|].
      tx_unfold. rewrite HS, Hf. eauto. }
  destruct (String.eqb_spec (lr_LeaveStatus leave) "PENDING") as [Hst|Hst].
  2:{ right. split; [intros [_ (l & Hl & Hp)]; congruence|].
      tx_unfold. rewrite HS, Hf, (eqb_PENDING_false _ Hst). eauto. }
  destruct (db_error env UpdateLeave) eqn:HU.
  { right. split; [refused HU|]. tx_unfold. rewrite HS, Hf, Hst. simpl. rewrite HU. eauto. }
  rewrite (reject_tx_ok env id req db leave HS HU Hf Hst).
  destruct (db_error env Commit) eqn:HC; [right; split; [refused HC|eauto]|].
  left. split.
  - split.
    + intros s Hs. simpl in Hs. intuition (subst; assumption).
    + exists leave. split; assumption.
  - exists leave. split; reflexivity.
Qed.

(** X6. RejectLeave returns nil exactly when every step goes through (the
    four statements are executed, the request exists and is PENDING), and
    then only the rows of that request are written; in every other case it
    returns an error and the database is the one it was given. The table of
    balances is the same in both cases. *)
Theorem RejectLeave_all_or_nothing env id req db :
  match RejectLeave env id req db with
  | (db', None) =>
      rejection_succeeds env id db
      /\ leaves db'
         = List.map (fun r => if leave_with_id id r
                              then set_columns env (reject_columns env req) r else r)
                    (leaves db)
      /\ leave_balances db' = leave_balances db
  | (db', Some _) => ~ rejection_succeeds env id db /\ db' = db
  end.
Proof.
  destruct (RejectLeave_outcome env id req db) as [[Hyes (leave & _ & ->)]|[Hno [err ->]]].
  - split; [exact Hyes|]. split; reflexivity.
  - split; [exact Hno|reflexivity].
Qed.

Lemma decided_blocks env id db leave :
  List.find (leave_with_id id) (leaves db) = Some leave ->
  lr_LeaveStatus leave <> "PENDING"%string ->
  ~ approval_succeeds env id db /\ ~ rejection_succeeds env id db.
Proof.
  intros Hf Hst. split.
  - intros [_ (l & Hl & Hp & _)]. congruence.
  - intros [_ (l & Hl & Hp)]. congruence.
Qed.

(** X7. A request leaves PENDING once. After a successful ApproveLeave or
    RejectLeave on a request, every later ApproveLeave and every later
    RejectLeave on it, in any environment and with any arguments, returns
    an error and changes nothing. *)
Theorem decided_request_stays_decided env id req rreq db db' :
  ApproveLeave env id req db = (db', None) \/ RejectLeave env id rreq db = (db', None) ->
  forall env2 req2 rreq2,
    (exists err, ApproveLeave env2 id req2 db' = (db', Some err))
    /\ (exists err, RejectLeave env2 id rreq2 db' = (db', Some err)).
Proof.
  intros Hdone env2 req2 rreq2.
  assert (Hdecided : exists leave',
             List.find (leave_with_id id) (leaves db') = Some leave'
             /\ lr_LeaveStatus leave' <> "PENDING"%string).
  { destruct Hdone as [Hres|Hres].
    - destruct (ApproveLeave_outcome env id req db) as [[Hyes _]|[_ [err Herr]]];
        [|congruence].
      destruct Hyes as [Hok (leave & Hf & Hst & balance & Hb)].
      rewrite (ApproveLeave_success env id req db leave balance Hok Hf Hst Hb) in Hres.
      injection Hres as <-.
      exists (set_columns env (approve_columns env req) leave). split.
      + simpl. apply find_map_same; [|exact Hf]. intros r. apply leave_with_id_set_columns.
      + simpl. discriminate.
    - destruct (RejectLeave_outcome env id rreq db)
        as [[_ (leave & Hf & Heq)]|[_ [err Herr]]]; [|congruence].
      rewrite Heq in Hres. injection Hres as <-.
      exists (set_columns env (reject_columns env rreq) leave). split.
      + simpl. apply find_map_same; [|exact Hf]. intros r. apply leave_with_id_set_columns.
      + simpl. discriminate. }
  destruct Hdecided as (leave' & Hf' & Hst').
  destruct (decided_blocks env2 id db' leave' Hf' Hst') as [Hna Hnr].
  split.
  - destruct (ApproveLeave_outcome env2 id req2 db') as [[Hyes _]|[_ Herr]];
      [contradiction|exact Herr].
  - destruct (RejectLeave_outcome env2 id rreq2 db') as [[Hyes _]|[_ Herr]];
      [contradiction|exact Herr].
Qed.

Lemma decided_request_stays_decided_witness :
  (exists err,
     ApproveLeave sample_env "leave-1" sample_approve
       (fst (RejectLeave sample_env "leave-1" sample_reject (sample_db "PENDING")))
     = (fst (RejectLeave sample_env "leave-1" sample_reject (sample_db "PENDING")), Some err))
  /\ (exists err,
        RejectLeave sample_env "leave-1" sample_reject
          (fst (RejectLeave sample_env "leave-1" sample_reject (sample_db "PENDING")))
        = (fst (RejectLeave sample_env "leave-1" sample_reject (sample_db "PENDING")),
           Some err)).
Proof.
  apply (decided_request_stays_decided sample_env "leave-1" sample_approve sample_reject
           (sample_db "PENDING")).
  right. vm_compute. reflexivity.
Defined.

(** *** Delete *)

Lemma delete_cond_false id r :
  (leave_with_id id r = true -> lr_LeaveStatus r <> "PENDING"%string) ->
  leave_with_id id r && String.eqb (lr_LeaveStatus r) "PENDING" = false.
Proof.
  intros H. destruct (leave_with_id id r); [|reflexivity].
  simpl. apply eqb_PENDING_false. apply H. reflexivity.
Qed.

(** X8. Delete reports success when there is nothing to delete: for an id
    under which no live PENDING request is stored (the request is missing,
    already deleted, or APPROVED, REJECTED or CANCELLED) it returns nil and
    the database is unchanged. *)
Theorem Delete_nothing_to_delete now id db :
  (forall r, In r (leaves db) -> leave_with_id id r = true ->
             lr_LeaveStatus r <> "PENDING"%string) ->
  Delete now None id db = (db, None).
Proof.
  intros H. unfold Delete. rewrite map_if_id.
  - rewrite DB_eta. reflexivity.
  - intros r Hr. apply delete_cond_false. apply H. exact Hr.
Qed.

Lemma Delete_nothing_to_delete_witness :
  Delete (Go.Date 2024 3 1) None "leave-1" (sample_db "APPROVED")
  = (sample_db "APPROVED", None)
  /\ Delete (Go.Date 2024 3 1) None "leave-404" (sample_db "PENDING")
     = (sample_db "PENDING", None).
Proof.
  split.
  - apply Delete_nothing_to_delete. intros r [<-|[]] _. simpl. discriminate.
  - apply Delete_nothing_to_delete. intros r [<-|[]] H. simpl in H. discriminate.
Defined.

Lemma find_leave_unique id l leave :
  NoDup (List.map lr_ID l) ->
  List.find (leave_with_id id) l = Some leave ->
  forall r, In r l -> leave_with_id id r = true -> r = leave.
Proof.
  induction l as [|a l IH]; simpl; intros Hnd Hf r Hr Hid; [contradiction|].
  apply NoDup_cons in Hnd as [Hnotin Hnd].
  assert (Hin : forall x, In x l -> leave_with_id id x = true -> lr_ID a <> id).
  { intros x Hx Hxid Ha. apply Hnotin. apply list_elem_of_In.
    apply List.in_map_iff. exists x. split; [|exact Hx].
    rewrite (leave_with_id_ID id x Hxid). symmetry. exact Ha. }
  destruct (leave_with_id id a) eqn:Ha.
  - injection Hf as <-. destruct Hr as [<-|Hr]; [reflexivity|].
    exfalso. apply (Hin r Hr Hid). apply leave_with_id_ID. exact Ha.
  - destruct Hr as [<-|Hr]; [congruence|]. apply IH; assumption.
Qed.

(** X9. Delete of a PENDING request hides it for good without touching the
    ledger: with primary keys unique, after the statement no request is
    found under the id, so ApproveLeave and RejectLeave on it return an
    error and change nothing; the table keeps its rows (the delete is a
    mark on the row) and the table of balances is the same. *)
Theorem Delete_pending_hides_request now id db leave :
  NoDup (List.map lr_ID (leaves db)) ->
  List.find (leave_with_id id) (leaves db) = Some leave ->
  lr_LeaveStatus leave = "PENDING"%string ->
  exists db',
    Delete now None id db = (db', None)
    /\ List.find (leave_with_id id) (leaves db') = None
    /\ length (leaves db') = length (leaves db)
    /\ In (set_DeletedAt leave now) (leaves db')
    /\ leave_balances db' = leave_balances db
    /\ forall env req rreq,
         (exists err, ApproveLeave env id req db' = (db', Some err))
         /\ (exists err, RejectLeave env id rreq db' = (db', Some err)).
Proof.
  intros Hnd Hf Hst. eexists. split; [reflexivity|]. simpl.
  pose proof (find_Some_holds _ _ _ Hf) as Hid.
  assert (Hnone : List.find (leave_with_id id)
                    (List.map (fun r => if leave_with_id id r
                                             && String.eqb (lr_LeaveStatus r) "PENDING"
                                        then set_DeletedAt r now else r) (leaves db)) = None).
  { apply find_none_intro. intros x Hx.
    apply List.in_map_iff in Hx as (r & <- & Hr).
    destruct (leave_with_id id r) eqn:Hrid; simpl.
    - rewrite (find_leave_unique id (leaves db) leave Hnd Hf r Hr Hrid), Hst. simpl.
      unfold leave_with_id. simpl. apply andb_false_r.
    - exact Hrid. }
  split; [exact Hnone|]. split; [apply List.length_map|]. split.
  - apply List.in_map_iff. exists leave. split.
    + rewrite Hid, Hst. reflexivity.
    + apply List.find_some in Hf. tauto.
  - split; [reflexivity|]. intros env req rreq. split.
    + destruct (ApproveLeave_outcome env id req
                  {| leaves := List.map (fun r => if leave_with_id id r
                                               && String.eqb (lr_LeaveStatus r) "PENDING"
                                          then set_DeletedAt r now else r) (leaves db);
                     leave_balances := leave_balances db |})
        as [[[_ (l & Hl & _)] _]|[_ Herr]]; [simpl in Hl; congruence|exact Herr].
    + destruct (RejectLeave_outcome env id rreq
                  {| leaves := List.map (fun r => if leave_with_id id r
                                               && String.eqb (lr_LeaveStatus r) "PENDING"
                                          then set_DeletedAt r now else r) (leaves db);
                     leave_balances := leave_balances db |})
        as [[[_ (l & Hl & _)] _]|[_ Herr]]; [simpl in Hl; congruence|exact Herr].
Qed.

Lemma Delete_pending_hides_request_witness :
  exists db',
    Delete (Go.Date 2024 3 1) None "leave-1" two_employees_db = (db', None)
    /\ List.find (leave_with_id "leave-1") (leaves db') = None
    /\ length (leaves db') = 2%nat
    /\ In (set_DeletedAt (sample_leave "PENDING") (Go.Date 2024 3 1)) (leaves db')
    /\ leave_balances db' = [sample_balance; other_balance]
    /\ forall env req rreq,
         (exists err, ApproveLeave env "leave-1" req db' = (db', Some err))
         /\ (exists err, RejectLeave env "leave-1" rreq db' = (db', Some err)).
Proof.
  apply (Delete_pending_hides_request (Go.Date 2024 3 1) "leave-1" two_employees_db
           (sample_leave "PENDING")).
  - apply (bool_decide_unpack (NoDup (List.map lr_ID (leaves two_employees_db)))).
    vm_compute. exact I.
  - reflexivity.
  - reflexivity.
Defined.

(** *** LeaveBalance *)

Lemma GetRemainingDays_nonneg (lb : LeaveBalance) : 0 <= GetRemainingDays lb.
Proof.
  unfold GetRemainingDays.
  destruct (Z.ltb_spec (Go.int_sub (lb_TotalDays lb) (lb_UsedDays lb)) 0); lia.
Qed.

(** X10. The method LeaveBalance returns the live balance rows of the
    employee (of the requested year, or of every year when the year is 0),
    each with RemainingDays recomputed by GetRemainingDays, never negative,
    whatever the table row carried; the rows of other employees, of other
    years and the deleted rows are left out, and no matching row is
    missed. *)
Theorem LeaveBalance_recomputes_remaining (req : GetEmployeeLeaveBalanceRequest) (db : DB) :
  exists balances,
    repository_LeaveBalance None req db = inr balances
    /\ (forall b, In b balances ->
          lb_EmployeeID b = br_EmployeeID req
          /\ (br_Year req <> 0 -> lb_Year b = br_Year req)
          /\ lb_DeletedAt b = None
          /\ lb_RemainingDays b = GetRemainingDays b
          /\ 0 <= lb_RemainingDays b
          /\ exists r, In r (leave_balances db) /\ b = set_RemainingDays r (GetRemainingDays r))
    /\ (forall r, In r (leave_balances db) ->
          lb_EmployeeID r = br_EmployeeID req ->
          (br_Year req <> 0 -> lb_Year r = br_Year req) ->
          lb_DeletedAt r = None ->
          In (set_RemainingDays r (GetRemainingDays r)) balances).
Proof.
  eexists. split; [reflexivity|]. split.
  - intros b Hb. apply List.in_map_iff in Hb as (r & <- & Hr).
    apply List.filter_In in Hr as [Hr Hw].
    unfold balance_wanted in Hw.
    apply andb_prop in Hw as [Hw Hdel]. apply andb_prop in Hw as [Hemp Hyear].
    split; [apply String.eqb_eq; exact Hemp|]. split.
    + intros Hy. destruct (Z.eqb_spec (br_Year req) 0); [contradiction|].
      simpl in Hyear. apply Z.eqb_eq. exact Hyear.
    + split; [exact (bool_decide_eq_true_1 _ Hdel)|]. split; [reflexivity|].
      split; [apply (GetRemainingDays_nonneg r)|]. exists r. split; [exact Hr|reflexivity].
  - intros r Hr Hemp Hyear Hdel. apply List.in_map_iff. exists r. split; [reflexivity|].
    apply List.filter_In. split; [exact Hr|].
    unfold balance_wanted. rewrite (proj2 (String.eqb_eq _ _) Hemp).
    rewrite (bool_decide_eq_true_2 _ Hdel). simpl. rewrite andb_true_r.
    destruct (Z.eqb_spec (br_Year req) 0); simpl; [reflexivity|].
    apply Z.eqb_eq. apply Hyear. assumption.
Qed.

Lemma LeaveBalance_recomputes_remaining_witness :
  exists balances,
    repository_LeaveBalance None (balance_request (sample_leave "PENDING")) two_employees_db
    = inr balances
    /\ In (set_RemainingDays sample_balance 8) balances
    /\ ~ In other_balance balances.
Proof.
  destruct (LeaveBalance_recomputes_remaining (balance_request (sample_leave "PENDING"))
              two_employees_db) as (balances & Hb & Hsound & Hcomplete).
  exists balances. split; [exact Hb|]. split.
  - apply (Hcomplete sample_balance).
    + simpl. left. reflexivity.
    + reflexivity.
    + intros _. vm_compute. reflexivity.
    + reflexivity.
  - intros Hin. apply Hsound in Hin as (Hemp & _). vm_compute in Hemp. discriminate Hemp.
Defined.

(** X11. The debit of an approval is what the method LeaveBalance reports
    next: after a successful approval (INTEGER columns), the balances of the
    employee for the year the leave starts include a row of the leave type
    with used = U + D, total = max(T, U + D) and
    RemainingDays = max(total - used, 0). *)
Theorem LeaveBalance_after_ApproveLeave env id req db leave balance :
  (forall s, In s approval_stmts -> db_error env s = None) ->
  List.find (leave_with_id id) (leaves db) = Some leave ->
  lr_LeaveStatus leave = "PENDING"%string ->
  List.find (balance_of leave) (leave_balances db) = Some balance ->
  in_int32 (lr_DaysRequested leave) ->
  in_int32 (lb_TotalDays balance) ->
  in_int32 (lb_UsedDays balance) ->
  exists db' balances b,
    ApproveLeave env id req db = (db', None)
    /\ repository_LeaveBalance None (balance_request leave) db' = inr balances
    /\ In b balances
    /\ lb_LeaveType b = lr_LeaveType leave
    /\ lb_UsedDays b = lb_UsedDays balance + lr_DaysRequested leave
    /\ lb_TotalDays b
       = Z.max (lb_TotalDays balance) (lb_UsedDays balance + lr_DaysRequested leave)
    /\ lb_RemainingDays b = Z.max (lb_TotalDays b - lb_UsedDays b) 0.
Proof.
  intros Hok Hf Hst Hb HD HT HU.
  assert (Hkey : balance_of leave balance = true) by (eapply find_Some_holds; exact Hb).
  destruct (find_map_other (balance_of leave) (balance_with_id (lb_ID balance))
              (saved_balance env (debited leave balance)) (leave_balances db) balance)
    as [old Hold].
  { intros r. apply balance_of_saved. exact Hkey. }
  { exact Hb. }
  { eapply balance_of_with_id. exact Hkey. }
  set (b' := saved_balance env (debited leave balance) old) in *.
  assert (Hused : lb_UsedDays b' = lb_UsedDays balance + lr_DaysRequested leave)
    by (simpl; apply int_add_int32; assumption).
  assert (Htotal : lb_TotalDays b'
                   = Z.max (lb_TotalDays balance)
                           (lb_UsedDays balance + lr_DaysRequested leave))
    by (simpl; rewrite max_Zmax, int_add_int32 by assumption; reflexivity).
  assert (Hrem' : GetRemainingDays b' = Z.max (lb_TotalDays b' - lb_UsedDays b') 0).
  { apply GetRemainingDays_max. rewrite Hused, Htotal.
    unfold in_int32 in *. change (2 ^ 31) with 2147483648 in *.
    unfold Go.in_int64, Go.min_int64, Go.max_int64. lia. }
  pose proof (find_Some_holds _ _ _ Hold) as Hkey'.
  eexists. eexists. exists (set_RemainingDays b' (GetRemainingDays b')).
  split; [exact (ApproveLeave_success env id req db leave balance Hok Hf Hst Hb)|].
  split; [reflexivity|]. split.
  - apply List.in_map_iff. exists b'. split; [reflexivity|].
    apply List.filter_In. split; [apply List.find_some in Hold; apply Hold|].
    unfold balance_of, balance_for in Hkey'.
    apply andb_prop in Hkey' as [Hk Hdel]. apply andb_prop in Hk as [Hk Hyear].
    apply andb_prop in Hk as [Hemp _].
    unfold balance_wanted, balance_request. cbn [br_EmployeeID br_Year].
    rewrite Hemp, Hdel, Hyear. simpl. destruct (negb _); reflexivity.
  - split.
    + unfold balance_of, balance_for in Hkey'.
      apply andb_prop in Hkey' as [Hk _]. apply andb_prop in Hk as [Hk _].
      apply andb_prop in Hk as [_ Htype]. apply String.eqb_eq. exact Htype.
    + split; [exact Hused|]. split; [exact Htotal|]. exact Hrem'.
Qed.

Lemma LeaveBalance_after_ApproveLeave_witness :
  exists db' balances b,
    ApproveLeave sample_env "leave-1" sample_approve two_employees_db = (db', None)
    /\ repository_LeaveBalance None (balance_request (sample_leave "PENDING")) db'
       = inr balances
    /\ In b balances
    /\ lb_LeaveType b = "ANNUAL"%string
    /\ lb_UsedDays b = 2 + 3
    /\ lb_TotalDays b = Z.max 10 (2 + 3)
    /\ lb_RemainingDays b = Z.max (lb_TotalDays b - lb_UsedDays b) 0.
Proof.
  apply (LeaveBalance_after_ApproveLeave sample_env "leave-1" sample_approve two_employees_db
           (sample_leave "PENDING") sample_balance).
  - intros s _. reflexivity.
  - reflexivity.
  - reflexivity.
  - vm_compute. reflexivity.
  - unfold in_int32. simpl. lia.
  - unfold in_int32. simpl. lia.
  - unfold in_int32. simpl. lia.
Defined.

(** *** Update and ApplyUpdate *)

Lemma Update_columns env id req db :
  Update env id req db
  = if bool_decide (size (update_columns req) = 0%nat)
    then (db, Some (Errorf "no fields to update"))
    else match Updates env UpdateFields id (update_columns req) db with
         | (_, inl err) => (db, Some (Errorf_w "failed to update leave request: " err))
         | (db', inr _) => (db', None)
         end.
Proof. reflexivity. Qed.

Lemma eqb_empty_false (s : string) : s <> ""%string -> negb (String.eqb s "") = true.
Proof. intros H. rewrite (proj2 (String.eqb_neq _ _) H). reflexivity. Qed.

Lemma IsZero_false (t : Go.Time) : t <> 0 -> negb (Go.IsZero t) = true.
Proof. intros H. unfold Go.IsZero. rewrite (proj2 (Z.eqb_neq _ _) H). reflexivity. Qed.

Lemma update_columns_size (req : UpdateLeaveRequestRequest) :
  names_a_field req -> bool_decide (size (update_columns req) = 0%nat) = false.
Proof.
  intros Hn. apply bool_decide_eq_false_2. intros Hsize.
  apply map_size_empty_iff in Hsize. revert Hsize. unfold update_columns.
  destruct Hn as [H|[H|[H|H]]].
  - rewrite (eqb_empty_false _ H).
    repeat (destruct (negb _); try apply insert_non_empty).
  - rewrite (IsZero_false _ H).
    destruct (negb (String.eqb (ur_LeaveType req) ""));
      repeat (destruct (negb _); try apply insert_non_empty).
  - rewrite (IsZero_false _ H).
    destruct (negb (String.eqb (ur_Reason req) "")); apply insert_non_empty.
  - rewrite (eqb_empty_false _ H). apply insert_non_empty.
Qed.

(** What the column map of a request does to a row. *)
Lemma set_columns_update env req r :
  let r' := set_columns env (update_columns req) r in
  lr_LeaveType r' = lr_LeaveType (ApplyUpdate r req)
  /\ lr_StartDate r' = lr_StartDate (ApplyUpdate r req)
  /\ lr_EndDate r' = lr_EndDate (ApplyUpdate r req)
  /\ lr_Reason r' = lr_Reason (ApplyUpdate r req)
  /\ lr_DaysRequested r' = lr_DaysRequested r
  /\ lr_LeaveStatus r' = lr_LeaveStatus r
  /\ lr_ApproverID r' = lr_ApproverID r
  /\ lr_Comments r' = lr_Comments r
  /\ lr_ApprovedAt r' = lr_ApprovedAt r
  /\ lr_UpdatedAt r' = now env.
Proof.
  unfold update_columns, ApplyUpdate. simpl.
  destruct (negb (String.eqb (ur_LeaveType req) ""));
    destruct (negb (Go.IsZero (ur_StartDate req)));
    destruct (negb (Go.IsZero (ur_EndDate req)));
    destruct (negb (String.eqb (ur_Reason req) ""));
    repeat split.
Qed.

(** X12. Update refuses a request that names no field, with the error "no
    fields to update" and before any statement; for a request that names a
    field and an id under which no live request is stored it reports
    success and the database is unchanged. *)
Theorem Update_edge_cases env id db :
  Update env id {| ur_LeaveType := ""; ur_StartDate := 0; ur_EndDate := 0; ur_Reason := "" |} db
  = (db, Some (Errorf "no fields to update"))
  /\ forall req,
       names_a_field req ->
       db_error env UpdateFields = None ->
       List.find (leave_with_id id) (leaves db) = None ->
       Update env id req db = (db, None).
Proof.
  split; [reflexivity|]. intros req Hn HU Hf.
  rewrite Update_columns, (update_columns_size req Hn).
  unfold Updates. rewrite HU, map_if_id by (apply find_none_all; exact Hf).
  rewrite DB_eta. reflexivity.
Qed.

Lemma Update_edge_cases_witness :
  Update sample_env "leave-404" extend_end (sample_db "PENDING") = (sample_db "PENDING", None).
Proof.
  apply (Update_edge_cases sample_env "leave-404" (sample_db "PENDING")).
  - right. right. left. vm_compute. discriminate.
  - reflexivity.
  - reflexivity.
Defined.

(** X13. Update has no guard on the status. For a stored request in any
    state and a request that names a field, the statement being executed,
    the row read back has the type, dates and reason that ApplyUpdate
    computes, while its day count, status, approver, comments and approval
    time are what they were; the table of balances is not written. *)
Theorem Update_rewrites_any_status env id req db leave :
  names_a_field req ->
  db_error env UpdateFields = None ->
  List.find (leave_with_id id) (leaves db) = Some leave ->
  exists db' leave',
    Update env id req db = (db', None)
    /\ List.find (leave_with_id id) (leaves db') = Some leave'
    /\ leave_balances db' = leave_balances db
    /\ lr_LeaveType leave' = lr_LeaveType (ApplyUpdate leave req)
    /\ lr_StartDate leave' = lr_StartDate (ApplyUpdate leave req)
    /\ lr_EndDate leave' = lr_EndDate (ApplyUpdate leave req)
    /\ lr_Reason leave' = lr_Reason (ApplyUpdate leave req)
    /\ lr_DaysRequested leave' = lr_DaysRequested leave
    /\ lr_LeaveStatus leave' = lr_LeaveStatus leave
    /\ lr_ApproverID leave' = lr_ApproverID leave
    /\ lr_Comments leave' = lr_Comments leave
    /\ lr_ApprovedAt leave' = lr_ApprovedAt leave
    /\ lr_UpdatedAt leave' = now env.
Proof.
  intros Hn HU Hf.
  eexists. exists (set_columns env (update_columns req) leave).
  split; [|split; [|split]].
  - rewrite Update_columns, (update_columns_size req Hn). unfold Updates. rewrite HU.
    reflexivity.
  - simpl. apply find_map_same; [|exact Hf]. intros r. apply leave_with_id_set_columns.
  - reflexivity.
  - apply set_columns_update.
Qed.

(** An APPROVED request of 3 days is moved to end on 2024-01-05. *)
Lemma Update_rewrites_any_status_witness :
  exists db' leave',
    Update sample_env "leave-1" extend_end (sample_db "APPROVED") = (db', None)
    /\ List.find (leave_with_id "leave-1") (leaves db') = Some leave'
    /\ leave_balances db' = [sample_balance]
    /\ lr_EndDate leave' = Go.Date 2024 1 5
    /\ lr_DaysRequested leave' = 3
    /\ lr_LeaveStatus leave' = "APPROVED"%string.
Proof.
  destruct (Update_rewrites_any_status sample_env "leave-1" extend_end (sample_db "APPROVED")
              (sample_leave "APPROVED"))
    as (db' & leave' & Hres & Hfind & Hbal & _ & _ & Hend & _ & Hdays & Hst & _).
  - right. right. left. vm_compute. discriminate.
  - reflexivity.
  - reflexivity.
  - exists db', leave'. repeat split; assumption.
Defined.

Lemma calculateDaysRequested_dates (startDate endDate : Go.Time) :
  is_date startDate -> is_date endDate -> startDate <= endDate ->
  days_between startDate endDate <= max_span_days ->
  calculateDaysRequested startDate endDate = days_between startDate endDate + 1
  /\ 0 <= days_between startDate endDate.
Proof.
  intros Hs He Hle Hmax.
  pose proof (dates_differ_by_days _ _ Hs He) as Hd.
  assert (Hk : 0 <= days_between startDate endDate).
  { unfold days_between. apply Z.div_pos; [lia|]. rewrite nanos_per_day_value. lia. }
  split; [|exact Hk].
  rewrite calculateDaysRequested_duration, Sub_in_range.
  - rewrite Hd, days_of_whole_days by lia. reflexivity.
  - rewrite Hd. unfold max_span_days in Hmax. rewrite nanos_per_day_value.
    unfold Go.minDuration, Go.maxDuration, Go.min_int64, Go.max_int64. lia.
Qed.

(** X14. ApplyUpdate keeps the day count in step with the dates: if the
    stored day count of a request is the inclusive span of its dates, and
    the dates after the update are calendar dates with end >= start at most
    106751 days apart, then the day count after the update is the inclusive
    span of the new dates, and is positive. *)
Theorem ApplyUpdate_keeps_day_count (lr : LeaveRequest) (req : UpdateLeaveRequestRequest) :
  day_count_ok lr ->
  is_date (lr_StartDate (ApplyUpdate lr req)) ->
  is_date (lr_EndDate (ApplyUpdate lr req)) ->
  lr_StartDate (ApplyUpdate lr req) <= lr_EndDate (ApplyUpdate lr req) ->
  days_between (lr_StartDate (ApplyUpdate lr req)) (lr_EndDate (ApplyUpdate lr req))
  <= max_span_days ->
  day_count_ok (ApplyUpdate lr req) /\ 0 < lr_DaysRequested (ApplyUpdate lr req).
Proof.
  intros Hok Hs He Hle Hmax.
  destruct (calculateDaysRequested_dates _ _ Hs He Hle Hmax) as [Hcalc Hpos].
  unfold day_count_ok in *. revert Hs He Hle Hmax Hcalc Hpos. unfold ApplyUpdate. simpl.
  destruct (negb (Go.IsZero (ur_StartDate req)));
    destruct (negb (Go.IsZero (ur_EndDate req))); simpl; intros; lia.
Qed.

Lemma ApplyUpdate_keeps_day_count_witness :
  day_count_ok (ApplyUpdate (sample_leave "PENDING") extend_end)
  /\ 0 < lr_DaysRequested (ApplyUpdate (sample_leave "PENDING") extend_end).
Proof.
  apply (ApplyUpdate_keeps_day_count (sample_leave "PENDING") extend_end).
  - vm_compute. reflexivity.
  - vm_compute. reflexivity.
  - vm_compute. reflexivity.
  - vm_compute. discriminate.
  - vm_compute. discriminate.
Defined.

(** Every span of 1 to 106751 whole days backwards, checked one by one. *)
Lemma sweep_backwards : sweep (Z.to_nat max_span_days) (- max_span_days) = true.
Proof. vm_cast_no_check (eq_refl true). Qed.

Lemma days_of_whole_days_backwards (k : Z) :
  - max_span_days <= k <= -1 -> days_of_duration (k * Go.nanos_per_day) = 0.
Proof.
  intros Hk. unfold days_of_duration.
  destruct (whole_days_hours k) as [-> ->].
  rewrite days_of_whole_hours, (sweep_sound _ (- max_span_days) sweep_backwards k)
    by (rewrite Z2Nat.id by (unfold max_span_days; lia); lia).
  unfold max_span_days in Hk. cbv zeta.
  rewrite wrap64_id_add by (unfold Go.min_int64, Go.max_int64; lia).
  destruct (Z.ltb_spec (k + 1) 0); lia.
Qed.

(** X15. A create request whose end date is before its start date is not
    refused: for calendar dates at most 106751 days apart the request built
    from it is PENDING with a day count of 0. *)
Theorem FromCreateRequest_reversed_dates (req : CreateLeaveRequestRequest) :
  is_date (cr_StartDate req) -> is_date (cr_EndDate req) ->
  cr_EndDate req < cr_StartDate req ->
  days_between (cr_EndDate req) (cr_StartDate req) <= max_span_days ->
  lr_DaysRequested (FromCreateRequest req) = 0
  /\ lr_LeaveStatus (FromCreateRequest req) = "PENDING"%string.
Proof.
  intros Hs He Hlt Hmax. split; [|reflexivity]. simpl.
  pose proof (dates_differ_by_days _ _ He Hs) as Hd.
  assert (Hk : 1 <= days_between (cr_EndDate req) (cr_StartDate req)).
  { rewrite nanos_per_day_value in Hd.
    destruct (Z_lt_le_dec (days_between (cr_EndDate req) (cr_StartDate req)) 1); lia. }
  assert (Hneg : cr_EndDate req - cr_StartDate req
                 = - days_between (cr_EndDate req) (cr_StartDate req) * Go.nanos_per_day)
    by lia.
  rewrite calculateDaysRequested_duration, Sub_in_range.
  - rewrite Hneg. apply days_of_whole_days_backwards. lia.
  - rewrite Hneg. unfold max_span_days in Hmax. rewrite nanos_per_day_value.
    unfold Go.minDuration, Go.maxDuration, Go.min_int64, Go.max_int64. lia.
Qed.

Lemma FromCreateRequest_reversed_dates_witness :
  lr_DaysRequested (FromCreateRequest reversed_create) = 0
  /\ lr_LeaveStatus (FromCreateRequest reversed_create) = "PENDING"%string.
Proof.
  apply (FromCreateRequest_reversed_dates reversed_create).
  - reflexivity.
  - reflexivity.
  - vm_compute. reflexivity.
  - vm_compute. discriminate.
Defined.

(** X16. Beyond the range of a Duration the day count no longer depends on
    the dates: for any two instants whose difference is the maximum Duration
    or more, calculateDaysRequested returns 106752, and 0 when the
    difference is the minimum Duration or less. *)
Theorem calculateDaysRequested_saturates (startDate endDate : Go.Time) :
  (Go.maxDuration <= endDate - startDate ->
   calculateDaysRequested startDate endDate = 106752)
  /\ (endDate - startDate <= Go.minDuration ->
      calculateDaysRequested startDate endDate = 0).
Proof.
  split; intros H; rewrite calculateDaysRequested_duration.
  - assert (Hsub : Go.Sub endDate startDate = Go.maxDuration).
    { unfold Go.Sub. unfold Go.minDuration, Go.maxDuration, Go.min_int64, Go.max_int64 in *.
      destruct (Z.ltb_spec (endDate - startDate) (-9223372036854775808)); [lia|].
      destruct (Z.ltb_spec 9223372036854775807 (endDate - startDate)); lia. }
    rewrite Hsub. vm_compute. reflexivity.
  - assert (Hsub : Go.Sub endDate startDate = Go.minDuration).
    { unfold Go.Sub. unfold Go.minDuration, Go.maxDuration, Go.min_int64, Go.max_int64 in *.
      destruct (Z.ltb_spec (endDate - startDate) (-9223372036854775808)); [reflexivity|].
      destruct (Z.ltb_spec 9223372036854775807 (endDate - startDate)); lia. }
    rewrite Hsub. vm_compute. reflexivity.
Qed.

Lemma calculateDaysRequested_saturates_witness :
  calculateDaysRequested (Go.Date 1700 1 1) (Go.Date 2024 1 1) = 106752
  /\ calculateDaysRequested (Go.Date 2024 1 1) (Go.Date 1700 1 1) = 0.
Proof.
  split.
  - apply (calculateDaysRequested_saturates (Go.Date 1700 1 1) (Go.Date 2024 1 1)).
    vm_compute. discriminate.
  - apply (calculateDaysRequested_saturates (Go.Date 2024 1 1) (Go.Date 1700 1 1)).
    vm_compute. discriminate.
Defined.

(* ===================================================================== *)
(** ** Further properties of the middleware                              *)
(* ===================================================================== *)

Lemma AuthFunc_decides (ctx : Context) :
  (credential_accepted ctx
   /\ exists token, token <> ""%string
        /\ AuthFunc ctx = inr (WithValue ctx (AContextKey "token") (AString token)))
  \/ (~ credential_accepted ctx
      /\ exists err, AuthFunc ctx = inl err /\ status_Code err = Unauthenticated).
Proof.
  destruct (AuthFunc ctx) as [err|ctx'] eqn:Hauth.
  - right. split.
    + intros (md & h & rest & Hmd & Hh & Hp & Ht).
      assert (Hacc : AuthFunc ctx
                     = inr (WithValue ctx (AContextKey "token")
                                      (AString (TrimPrefix h "Bearer "))))
        by (apply AuthFunc_accepts; exists md, h, rest; auto).
      congruence.
    + exists err. split; [reflexivity|].
      apply (AuthFunc_rejects_Unauthenticated ctx). exact Hauth.
  - left. apply AuthFunc_accepts in Hauth as (md & h & rest & Hmd & Hh & Hp & Ht & ->).
    split.
    + exists md, h, rest. auto.
    + exists (TrimPrefix h "Bearer "). split; [exact Ht|reflexivity].
Qed.

(** X17. UnaryAuthInterceptor is a gate in front of the handler. On the two
    names of the allow-list the handler runs on the context as it came. On
    every other method the handler runs exactly when the credential is
    accepted, on the context extended with a non-empty token under the
    key contextKey("token"), and its result is returned as it is; otherwise
    the call returns the nil response and an Unauthenticated error. *)
Theorem UnaryAuthInterceptor_gate (ctx : Context) (req : any) (info : UnaryServerInfo)
  (handler : UnaryHandler) :
  (SkipAuth (FullMethod info) = true ->
   UnaryAuthInterceptor ctx req info handler = handler ctx req)
  /\ (SkipAuth (FullMethod info) = false -> credential_accepted ctx ->
      exists token,
        token <> ""%string
        /\ UnaryAuthInterceptor ctx req info handler
           = handler (WithValue ctx (AContextKey "token") (AString token)) req)
  /\ (SkipAuth (FullMethod info) = false -> ~ credential_accepted ctx ->
      exists err,
        UnaryAuthInterceptor ctx req info handler = Returned (Nil, Some err)
        /\ status_Code err = Unauthenticated).
Proof.
  unfold UnaryAuthInterceptor. split; [|split].
  - intros ->. reflexivity.
  - intros -> Hacc.
    destruct (AuthFunc_decides ctx) as [[_ (token & Hne & ->)]|[Hno _]]; [|contradiction].
    exists token. split; [exact Hne|reflexivity].
  - intros -> Hno.
    destruct (AuthFunc_decides ctx) as [[Hacc _]|[_ (err & -> & Hcode)]]; [contradiction|].
    exists err. split; [reflexivity|exact Hcode].
Qed.

Lemma UnaryAuthInterceptor_gate_witness :
  (UnaryAuthInterceptor empty_ctx Nil Login (fun _ _ => Returned (AString "ok", None))
   = Returned (AString "ok", None))
  /\ (exists token,
        token <> ""%string
        /\ UnaryAuthInterceptor (ctx_with_header "authrorization" "Bearer abc") Nil GetEmployee
             (fun c _ => Returned (Value c (AContextKey "token"), None))
           = Returned (Value (WithValue (ctx_with_header "authrorization" "Bearer abc")
                                        (AContextKey "token") (AString token))
                             (AContextKey "token"), None))
  /\ (exists err,
        UnaryAuthInterceptor empty_ctx Nil GetEmployee (fun _ _ => Returned (AString "ok", None))
        = Returned (Nil, Some err)
        /\ status_Code err = Unauthenticated).
Proof.
  split; [|split].
  - apply (proj1 (UnaryAuthInterceptor_gate empty_ctx Nil Login
                    (fun _ _ => Returned (AString "ok", None)))).
    reflexivity.
  - apply (proj1 (proj2 (UnaryAuthInterceptor_gate
                           (ctx_with_header "authrorization" "Bearer abc") Nil GetEmployee
                           (fun c _ => Returned (Value c (AContextKey "token"), None)))));
      [reflexivity|].
    exists {[ "authrorization"%string := ["Bearer abc"%string] ]}, "Bearer abc"%string, [].
    repeat split. vm_compute. discriminate.
  - apply (proj2 (proj2 (UnaryAuthInterceptor_gate empty_ctx Nil GetEmployee
                           (fun _ _ => Returned (AString "ok", None)))));
      [reflexivity|].
    intros (md & h & rest & Hmd & _). discriminate Hmd.
Defined.

Lemma substring_all (s : string) : String.substring 0 (String.length s) s = s.
Proof. induction s as [|a s IH]; simpl; [reflexivity|]. rewrite IH. reflexivity. Qed.

Lemma prefix_nonempty (p s : string) :
  p <> ""%string -> String.prefix p s = true -> s <> ""%string.
Proof. intros Hp H ->. destruct p; [contradiction|discriminate]. Qed.

(** X18. The token comes back as it was sent: for every non-empty token t,
    a context whose first header value under the key AuthFunc reads is
    "Bearer " followed by t is accepted, and the value stored under
    contextKey("token") is exactly t. *)
Theorem AuthFunc_extracts_token (ctx : Context) (md : gmap string (list string))
  (token : string) (rest : list string) :
  incoming ctx = Some md ->
  md !! "authrorization"%string = Some (("Bearer " +:+ token) :: rest) ->
  token <> ""%string ->
  AuthFunc ctx = inr (WithValue ctx (AContextKey "token") (AString token))
  /\ Value (WithValue ctx (AContextKey "token") (AString token)) (AContextKey "token")
     = AString token.
Proof.
  intros Hmd Hh Hne. split; [|apply Value_WithValue_same].
  assert (Htrim : TrimPrefix ("Bearer " +:+ token) "Bearer " = token).
  { unfold TrimPrefix, HasPrefix. simpl. change ("" +:+ token) with token.
    assert (Hp : String.prefix "" token = true) by (destruct token; reflexivity).
    rewrite Hp. rewrite Nat.sub_0_r. apply substring_all. }
  apply AuthFunc_accepts. exists md, ("Bearer " +:+ token)%string, rest.
  split; [exact Hmd|]. split; [exact Hh|]. split.
  - unfold HasPrefix. simpl. change ("" +:+ token) with token.
    destruct token; reflexivity.
  - split; [rewrite Htrim; exact Hne|rewrite Htrim; reflexivity].
Qed.

Lemma AuthFunc_extracts_token_witness :
  AuthFunc (ctx_with_header "authrorization" "Bearer abc.def.ghi")
  = inr (WithValue (ctx_with_header "authrorization" "Bearer abc.def.ghi")
                   (AContextKey "token") (AString "abc.def.ghi"))
  /\ Value (WithValue (ctx_with_header "authrorization" "Bearer abc.def.ghi")
                      (AContextKey "token") (AString "abc.def.ghi")) (AContextKey "token")
     = AString "abc.def.ghi".
Proof.
  apply (AuthFunc_extracts_token (ctx_with_header "authrorization" "Bearer abc.def.ghi")
           {[ "authrorization"%string := ["Bearer abc.def.ghi"%string] ]}
           "abc.def.ghi" []).
  - reflexivity.
  - reflexivity.
  - discriminate.
Defined.

(** X19. The format test and the trimming disagree on the space: a header
    value that starts with "Bearer" but not with "Bearer " (the word alone,
    or followed by anything but a space) is accepted, and the whole header
    value is stored as the token. *)
Theorem AuthFunc_keeps_untrimmed_header (ctx : Context) (md : gmap string (list string))
  (authHeader : string) (rest : list string) :
  incoming ctx = Some md ->
  md !! "authrorization"%string = Some (authHeader :: rest) ->
  HasPrefix authHeader "Bearer" = true ->
  HasPrefix authHeader "Bearer " = false ->
  AuthFunc ctx = inr (WithValue ctx (AContextKey "token") (AString authHeader)).
Proof.
  intros Hmd Hh Hp Hnp.
  assert (Htrim : TrimPrefix authHeader "Bearer " = authHeader)
    by (unfold TrimPrefix; rewrite Hnp; reflexivity).
  apply AuthFunc_accepts. exists md, authHeader, rest.
  split; [exact Hmd|]. split; [exact Hh|]. split; [exact Hp|].
  rewrite Htrim. split; [|reflexivity].
  apply (prefix_nonempty "Bearer"); [discriminate|exact Hp].
Qed.

Lemma AuthFunc_keeps_untrimmed_header_witness :
  AuthFunc (ctx_with_header "authrorization" "Bearer")
  = inr (WithValue (ctx_with_header "authrorization" "Bearer")
                   (AContextKey "token") (AString "Bearer")).
Proof.
  apply (AuthFunc_keeps_untrimmed_header (ctx_with_header "authrorization" "Bearer")
           {[ "authrorization"%string := ["Bearer"%string] ]} "Bearer" []);
    reflexivity.
Defined.

(** X20. StreamAuthInterceptor is the same gate for streams. On the
    allow-list the handler gets the stream as it came; otherwise it runs
    exactly when the credential in the context of the stream is accepted,
    on a stream that differs from the original only in its Context(), which
    carries the token; if not, the call returns an Unauthenticated error. *)
Theorem StreamAuthInterceptor_gate (srv : any) (ss : ServerStream) (info : StreamServerInfo)
  (handler : StreamHandler) :
  (SkipAuth (ss_FullMethod info) = true ->
   StreamAuthInterceptor srv ss info handler = handler srv ss)
  /\ (SkipAuth (ss_FullMethod info) = false -> credential_accepted (ss_Context ss) ->
      exists token wrapped,
        token <> ""%string
        /\ StreamAuthInterceptor srv ss info handler = handler srv wrapped
        /\ ss_Context wrapped
           = WithValue (ss_Context ss) (AContextKey "token") (AString token)
        /\ ss_transport wrapped = ss_transport ss)
  /\ (SkipAuth (ss_FullMethod info) = false -> ~ credential_accepted (ss_Context ss) ->
      exists err,
        StreamAuthInterceptor srv ss info handler = Returned (Some err)
        /\ status_Code err = Unauthenticated).
Proof.
  unfold StreamAuthInterceptor. split; [|split].
  - intros ->. reflexivity.
  - intros -> Hacc.
    destruct (AuthFunc_decides (ss_Context ss)) as [[_ (token & Hne & ->)]|[Hno _]];
      [|contradiction].
    exists token. eexists. split; [exact Hne|]. split; [reflexivity|]. split; reflexivity.
  - intros -> Hno.
    destruct (AuthFunc_decides (ss_Context ss)) as [[Hacc _]|[_ (err & -> & Hcode)]];
      [contradiction|].
    exists err. split; [reflexivity|exact Hcode].
Qed.

Lemma StreamAuthInterceptor_gate_witness :
  (exists token wrapped,
     token <> ""%string
     /\ StreamAuthInterceptor Nil (stream_with_header "authrorization" "Bearer abc")
          ListEmployeesStream (fun _ _ => Returned None)
        = Returned None
     /\ ss_Context wrapped
        = WithValue (ctx_with_header "authrorization" "Bearer abc")
                    (AContextKey "token") (AString token)
     /\ ss_transport wrapped = 7%nat)
  /\ (exists err,
        StreamAuthInterceptor Nil (stream_with_header "authorization" "Bearer abc")
          ListEmployeesStream (fun _ _ => Returned None)
        = Returned (Some err)
        /\ status_Code err = Unauthenticated).
Proof.
  split.
  - apply (proj1 (proj2 (StreamAuthInterceptor_gate Nil
                           (stream_with_header "authrorization" "Bearer abc")
                           ListEmployeesStream (fun _ _ => Returned None))));
      [reflexivity|].
    exists {[ "authrorization"%string := ["Bearer abc"%string] ]}, "Bearer abc"%string, [].
    repeat split. vm_compute. discriminate.
  - apply (proj2 (proj2 (StreamAuthInterceptor_gate Nil
                           (stream_with_header "authorization" "Bearer abc")
                           ListEmployeesStream (fun _ _ => Returned None))));
      [reflexivity|].
    intros (md & h & rest & Hmd & Hh & _). injection Hmd as <-.
    vm_compute in Hh. discriminate Hh.
Defined.

(** *** The logging and recovery interceptors *)

Lemma randomString_below_62 (clock : nat -> Z) (n0 : nat) (length : Z) :
  length < 62 -> exists v, randomString clock n0 length = Panicked v.
Proof.
  intros Hl. unfold randomString.
  destruct (Z.ltb_spec length 0); [eauto|].
  destruct (randomString_loop_panics clock n0 (String.length charset) 0
              (List.repeat Ascii.zero (Z.to_nat length))) as [v Hv].
  - lia.
  - rewrite List.repeat_length. change (String.length charset) with 62%nat. lia.
  - rewrite Hv. eauto.
Qed.

Lemma getRequestID_generates (clock : nat -> Z) (Format_20060102150405 : Z -> string)
  (ctx : Context) :
  Value ctx (AString "request_id") = Nil ->
  exists v, getRequestID clock Format_20060102150405 ctx = Panicked v.
Proof.
  intros Hnil. unfold getRequestID, generateRequestID. rewrite Hnil. simpl.
  destruct (randomString_below_62 clock 1%nat 8 ltac:(lia)) as [v ->]. eauto.
Qed.

(** X21. With a request identifier in the context, LoggingInterceptor does
    not alter the call: what the handler returns is returned as it is,
    between a "Request started" entry and one closing entry that carries
    the identifier, the duration in milliseconds and the status code
    ("Request completed", code OK, when the error is nil; "Request failed"
    with the code and the message of the error otherwise); a panic of the
    handler passes through after the first entry. *)
Theorem LoggingInterceptor_passes_result (clock : nat -> Z)
  (Format_20060102150405 : Z -> string) (log : list LogEntry) (ctx : Context) (req : any)
  (info : UnaryServerInfo) (handler : UnaryHandler) (requestID : string) :
  Value ctx (AString "request_id") = AString requestID ->
  match handler ctx req with
  | Returned (resp, err) =>
      exists started finished,
        LoggingInterceptor clock Format_20060102150405 log ctx req info handler
        = (log ++ [started; finished], Returned (resp, err))
        /\ message started = "Request started"%string
        /\ fields started !! "request_id"%string = Some (AString requestID)
        /\ fields started !! "method"%string = Some (AString (FullMethod info))
        /\ fields finished !! "request_id"%string = Some (AString requestID)
        /\ fields finished !! "duration_ms"%string
           = Some (AInt (Milliseconds (Go.Sub (clock 1%nat) (clock 0%nat))))
        /\ match err with
           | None =>
               level finished = "info"%string
               /\ message finished = "Request completed"%string
               /\ fields finished !! "status_code"%string = Some (AInt 0)
           | Some e =>
               level finished = "error"%string
               /\ message finished = "Request failed"%string
               /\ fields finished !! "status_code"%string
                  = Some (AInt (Code_number (status_Code e)))
               /\ fields finished !! "error"%string = Some (AString (Error e))
           end
  | Panicked v =>
      exists started,
        LoggingInterceptor clock Format_20060102150405 log ctx req info handler
        = (log ++ [started], Panicked v)
        /\ message started = "Request started"%string
  end.
Proof.
  intros Hid. unfold LoggingInterceptor, getRequestID. rewrite Hid. simpl.
  destruct (handler ctx req) as [[resp [e|]]|v].
  - eexists. eexists. rewrite <- List.app_assoc. split; [reflexivity|]. repeat split.
  - eexists. eexists. rewrite <- List.app_assoc. split; [reflexivity|]. repeat split.
  - eexists. split; reflexivity.
Qed.

Lemma LoggingInterceptor_passes_result_witness :
  exists started finished,
    LoggingInterceptor sample_clock sample_Format []
      (WithValue empty_ctx (AString "request_id") (AString "req-42")) Nil GetEmployee
      (fun _ _ => Returned (Nil, Some (StatusError NotFound "Employee not found")))
    = ([] ++ [started; finished],
       Returned (Nil, Some (StatusError NotFound "Employee not found")))
    /\ message started = "Request started"%string
    /\ fields started !! "request_id"%string = Some (AString "req-42")
    /\ fields started !! "method"%string
       = Some (AString "/hr.employee.v1.EmployeeService/GetEmployee")
    /\ fields finished !! "request_id"%string = Some (AString "req-42")
    /\ fields finished !! "duration_ms"%string
       = Some (AInt (Milliseconds (Go.Sub (sample_clock 1%nat) (sample_clock 0%nat))))
    /\ level finished = "error"%string
    /\ message finished = "Request failed"%string
    /\ fields finished !! "status_code"%string = Some (AInt 5)
    /\ fields finished !! "error"%string
       = Some (AString "rpc error: code = NotFound desc = Employee not found").
Proof.
  apply (LoggingInterceptor_passes_result sample_clock sample_Format []
           (WithValue empty_ctx (AString "request_id") (AString "req-42")) Nil GetEmployee
           (fun _ _ => Returned (Nil, Some (StatusError NotFound "Employee not found")))
           "req-42").
  reflexivity.
Defined.

Lemma LoggingInterceptor_panics_of_missing_id (clock : nat -> Z)
  (Format_20060102150405 : Z -> string) (log : list LogEntry) (ctx : Context) (req : any)
  (info : UnaryServerInfo) :
  Value ctx (AString "request_id") = Nil ->
  exists v, forall handler,
    snd (LoggingInterceptor clock Format_20060102150405 log ctx req info handler)
    = Panicked v.
Proof.
  intros Hnil.
  destruct (getRequestID_generates (fun n => clock (S n)) Format_20060102150405 ctx Hnil)
    as [v Hv].
  exists v. intros handler. unfold LoggingInterceptor. rewrite Hv. reflexivity.
Qed.

(** X22. Without a request identifier in the context LoggingInterceptor
    never reaches the handler: the call panics while the identifier is
    generated, with a value that does not depend on the handler, and
    nothing is logged. *)
Theorem LoggingInterceptor_panics_without_request_id (clock : nat -> Z)
  (Format_20060102150405 : Z -> string) (log : list LogEntry) (ctx : Context) (req : any)
  (info : UnaryServerInfo) :
  Value ctx (AString "request_id") = Nil ->
  exists v, forall handler,
    LoggingInterceptor clock Format_20060102150405 log ctx req info handler
    = (log, Panicked v).
Proof.
  intros Hnil.
  destruct (getRequestID_generates (fun n => clock (S n)) Format_20060102150405 ctx Hnil)
    as [v Hv].
  exists v. intros handler. unfold LoggingInterceptor. rewrite Hv. reflexivity.
Qed.

Lemma LoggingInterceptor_panics_without_request_id_witness :
  exists v, forall handler,
    LoggingInterceptor sample_clock sample_Format []
      (ctx_with_header "authrorization" "Bearer abc") Nil GetEmployee handler
    = ([], Panicked v).
Proof.
  apply (LoggingInterceptor_panics_without_request_id sample_clock sample_Format []
           (ctx_with_header "authrorization" "Bearer abc") Nil GetEmployee).
  reflexivity.
Defined.

(** X23. Behind RecoveryInterceptor that panic does not reach the caller:
    a call that goes through RecoveryInterceptor and then LoggingInterceptor
    on a context without a request identifier returns the nil response and
    the Internal error "internal server error", whatever the handler, and
    the recovery logs one entry for it. *)
Theorem Recovery_over_Logging_without_request_id (clock : nat -> Z)
  (Format_20060102150405 : Z -> string) (log inner : list LogEntry) (ctx : Context)
  (req : any) (info : UnaryServerInfo) (handler : UnaryHandler) :
  Value ctx (AString "request_id") = Nil ->
  exists entry,
    RecoveryInterceptor log ctx req info
      (fun ctx req =>
         snd (LoggingInterceptor clock Format_20060102150405 inner ctx req info handler))
    = (log ++ [entry], Returned (Nil, Some (StatusError Internal "internal server error")))
    /\ message entry = "Panic recovered"%string.
Proof.
  intros Hnil.
  destruct (LoggingInterceptor_panics_of_missing_id clock Format_20060102150405 inner ctx req
              info Hnil) as [v Hv].
  unfold RecoveryInterceptor. rewrite (Hv handler). simpl.
  rewrite bool_decide_eq_true_2 by apply (@recover_Panicked (any * option error)).
  eexists. split; reflexivity.
Qed.

Lemma Recovery_over_Logging_without_request_id_witness :
  exists entry,
    RecoveryInterceptor [] empty_ctx Nil GetEmployee
      (fun ctx req =>
         snd (LoggingInterceptor sample_clock sample_Format [] ctx req GetEmployee
                (fun _ _ => Returned (AString "ok", None))))
    = ([] ++ [entry], Returned (Nil, Some (StatusError Internal "internal server error")))
    /\ message entry = "Panic recovered"%string.
Proof.
  apply (Recovery_over_Logging_without_request_id sample_clock sample_Format [] [] empty_ctx
           Nil GetEmployee (fun _ _ => Returned (AString "ok", None))).
  reflexivity.
Defined.

(** X24. StreamRecoveryInterceptor gives streams the guarantee of the unary
    interceptor: it always returns; a panic of the stream handler, whatever
    its value, becomes the Internal error "internal server error" and one
    log entry; an error (or nil) returned by the handler is returned as it
    is and nothing is logged. *)
Theorem StreamRecoveryInterceptor_contains_panics (log : list LogEntry) (srv : any)
  (ss : ServerStream) (info : StreamServerInfo) (handler : StreamHandler) :
  match handler srv ss with
  | Panicked v =>
      exists entry,
        StreamRecoveryInterceptor log srv ss info handler
        = (log ++ [entry], Returned (Some (StatusError Internal "internal server error")))
        /\ message entry = "Stream panic recovered"%string
        /\ fields entry !! "method"%string = Some (AString (ss_FullMethod info))
  | Returned err => StreamRecoveryInterceptor log srv ss info handler = (log, Returned err)
  end.
Proof.
  unfold StreamRecoveryInterceptor.
  destruct (handler srv ss) as [err|v].
  - rewrite bool_decide_eq_false_2 by (intros H; apply H; reflexivity). reflexivity.
  - rewrite bool_decide_eq_true_2 by apply recover_Panicked.
    eexists. split; [reflexivity|]. split; reflexivity.
Qed.

(** *** Long random strings *)







(* ===================================================================== *)
(** ** Properties of the logger                                          *)
(* ===================================================================== *)

Import Logger.

Lemma parse_pairs_keys_and_values (pairs : list (string * any)) :
  forall m,
    parse_pairs (keys_and_values pairs) m
    = List.fold_left (fun m kv => <[fst kv := snd kv]> m) pairs m.
Proof. induction pairs as [|[k v] pairs IH]; intros m; simpl; [reflexivity|]. apply IH. Qed.

Lemma keys_and_values_even (pairs : list (string * any)) :
  Nat.odd (length (keys_and_values pairs)) = false.
Proof. induction pairs as [|[k v] pairs IH]; simpl; [reflexivity|]. exact IH. Qed.

Lemma parse_keys_and_values (pairs : list (string * any)) :
  parseKeysAndValues (keys_and_values pairs)
  = List.fold_left (fun m kv => <[fst kv := snd kv]> m) pairs ∅.
Proof.
  unfold parseKeysAndValues. rewrite keys_and_values_even.
  apply parse_pairs_keys_and_values.
Qed.

Lemma keys_and_values_app (p q : list (string * any)) :
  keys_and_values (p ++ q) = keys_and_values p ++ keys_and_values q.
Proof. unfold keys_and_values. apply List.flat_map_app. Qed.

Lemma fold_insert_key (l : list (string * any)) :
  forall (m : gmap string any) (k : string) (x : any),
    List.fold_left (fun m kv => <[fst kv := snd kv]> m) l m !! k = Some x ->
    m !! k = None -> k ∈ List.map fst l.
Proof.
  induction l as [|[k1 v1] l IH]; simpl; intros m k x Hm Hn; [congruence|].
  destruct (decide (k1 = k)) as [->|Hne]; [left|].
  right. apply (IH _ _ _ Hm). rewrite lookup_insert_ne by exact Hne. exact Hn.
Qed.

(** X26. parseKeysAndValues gives back what is passed as key/value pairs:
    when the keys are distinct every value is found under its key and the
    map has one field per pair; when a key is repeated the last pair
    wins. *)
Theorem parseKeysAndValues_pairs (pairs : list (string * any)) :
  (NoDup (List.map fst pairs) ->
   (forall k v, In (k, v) pairs -> parseKeysAndValues (keys_and_values pairs) !! k = Some v)
   /\ size (parseKeysAndValues (keys_and_values pairs)) = length pairs)
  /\ (forall k v,
        parseKeysAndValues (keys_and_values (pairs ++ [(k, v)])) !! k = Some v).
Proof.
  split.
  - rewrite parse_keys_and_values.
    induction pairs as [|[k0 v0] pairs IH] using List.rev_ind; intros Hnd.
    + split; [intros k v []|reflexivity].
    + rewrite List.map_app in Hnd. simpl in Hnd.
      apply NoDup_app in Hnd as (Hnd & Hdisj & _).
      destruct (IH Hnd) as [IHl IHs].
      rewrite List.fold_left_app. simpl.
      assert (Hfresh : List.fold_left (fun m kv => <[fst kv := snd kv]> m) pairs
                         (∅ : gmap string any) !! k0 = None).
      { destruct (List.fold_left _ pairs ∅ !! k0) as [x|] eqn:Hx; [|reflexivity].
        exfalso. apply (Hdisj k0); [|left].
        apply (fold_insert_key pairs ∅ k0 x Hx). apply lookup_empty. }
      split.
      * intros k v Hin. apply List.in_app_or in Hin as [Hin|[[= <- <-]|[]]].
        -- rewrite lookup_insert_ne; [apply IHl; exact Hin|].
           intros ->. rewrite (IHl _ _ Hin) in Hfresh. discriminate.
        -- apply lookup_insert_eq.
      * rewrite map_size_insert_None by exact Hfresh.
        rewrite IHs, List.length_app. simpl. lia.
  - intros k v. rewrite parse_keys_and_values, List.fold_left_app. simpl.
    apply lookup_insert_eq.
Qed.

Lemma parseKeysAndValues_pairs_witness :
  (forall k v, In (k, v) [("id"%string, AString "e-7"); ("page"%string, AInt 2)] ->
     parseKeysAndValues [AString "id"; AString "e-7"; AString "page"; AInt 2] !! k = Some v)
  /\ size (parseKeysAndValues [AString "id"; AString "e-7"; AString "page"; AInt 2]) = 2%nat.
Proof.
  apply (proj1 (parseKeysAndValues_pairs
                  [("id"%string, AString "e-7"); ("page"%string, AInt 2)])).
  apply (bool_decide_unpack (NoDup ["id"%string; "page"%string])). vm_compute. exact I.
Defined.

Lemma parse_pairs_app (pairs : list (string * any)) (rest : list any) :
  forall m,
    parse_pairs (keys_and_values pairs ++ rest) m
    = parse_pairs rest (List.fold_left (fun m kv => <[fst kv := snd kv]> m) pairs m).
Proof. induction pairs as [|[k v] pairs IH]; intros m; simpl; [reflexivity|]. apply IH. Qed.

Lemma length_keys_and_values (pairs : list (string * any)) :
  length (keys_and_values pairs) = (2 * length pairs)%nat.
Proof. induction pairs as [|[k v] pairs IH]; simpl; [reflexivity|]. rewrite IH. lia. Qed.

(** X27. The two repairs of parseKeysAndValues. A key left without a value
    at the end of the arguments gets the value "MISSING_VALUE"; a key that
    is not a string is replaced by "INVALID_KEY", under which its value is
    then found (so two such keys overwrite each other). *)
Theorem parseKeysAndValues_repairs (pairs : list (string * any)) :
  (forall k,
     parseKeysAndValues (keys_and_values pairs ++ [AString k]) !! k
     = Some (AString "MISSING_VALUE"))
  /\ (forall key v,
        (forall s, key <> AString s) ->
        parseKeysAndValues (keys_and_values pairs ++ [key; v]) !! "INVALID_KEY"%string
        = Some v).
Proof.
  split.
  - intros k. unfold parseKeysAndValues.
    rewrite List.length_app, length_keys_and_values.
    change (length [AString k]) with 1%nat.
    rewrite (Nat.add_comm _ 1), Nat.odd_add_mul_2.
    change (Nat.odd 1) with true. cbv iota.
    rewrite <- List.app_assoc, parse_pairs_app. simpl. apply lookup_insert_eq.
  - intros key v Hkey. unfold parseKeysAndValues.
    rewrite List.length_app, length_keys_and_values.
    change (length [key; v]) with 2%nat.
    rewrite (Nat.add_comm _ 2), Nat.odd_add_mul_2.
    change (Nat.odd 2) with false. cbv iota.
    rewrite parse_pairs_app. simpl.
    assert (Hk : key_of key = "INVALID_KEY"%string).
    { destruct key; try reflexivity. exfalso. apply (Hkey s). reflexivity. }
    rewrite Hk. apply lookup_insert_eq.
Qed.

Lemma parseKeysAndValues_repairs_witness :
  parseKeysAndValues [AString "id"; AString "e-7"; AInt 5; AString "five"]
  !! "INVALID_KEY"%string = Some (AString "five").
Proof.
  apply (proj2 (parseKeysAndValues_repairs [("id"%string, AString "e-7")])
           (AInt 5) (AString "five")).
  intros s. discriminate.
Defined.

Lemma pair_induction {A} (P : list A -> Prop) :
  P [] -> (forall x, P [x]) -> (forall x y l, P l -> P (x :: y :: l)) -> forall l, P l.
Proof.
  intros H0 H1 H2 l.
  assert (H : P l /\ forall a, P (a :: l)).
  { induction l as [|b l [IHl IHa]]; [split; [exact H0|exact H1]|].
    split; [apply IHa|]. intros a. apply H2. exact IHl. }
  apply H.
Qed.

Lemma parse_pairs_keys (l : list any) :
  forall (m : gmap string any) (k : string),
    is_Some (parse_pairs l m !! k) ->
    is_Some (m !! k) \/ k = "INVALID_KEY"%string
    \/ exists i, l !! (2 * i)%nat = Some (AString k) /\ (2 * i + 1 < length l)%nat.
Proof.
  induction l as [|x|x y l IH] using pair_induction; intros m k Hk; simpl in Hk; auto.
  apply IH in Hk as [Hk|[Hk|(i & Hi & Hlen)]].
  - destruct (decide (key_of x = k)) as [Hx|Hx].
    + destruct x; simpl in Hx; auto.
      right. right. exists 0%nat. subst. split; [reflexivity|simpl; lia].
    + rewrite lookup_insert_ne in Hk by exact Hx. auto.
  - auto.
  - right. right. exists (S i). split.
    + replace (2 * S i)%nat with (S (S (2 * i))) by lia. exact Hi.
    + simpl. lia.
Qed.

Lemma parse_pairs_size (l : list any) :
  forall m : gmap string any, (2 * size (parse_pairs l m) <= 2 * size m + length l)%nat.
Proof.
  induction l as [|x|x y l IH] using pair_induction; intros m;
    cbn [parse_pairs length]; try lia.
  specialize (IH (<[key_of x := y]> m)).
  pose proof (map_size_insert (key_of x) y m) as Hs.
  destruct (m !! key_of x); simpl in Hs; lia.
Qed.

(** X28. parseKeysAndValues invents no field: every key of the map it
    returns is "INVALID_KEY" or a string passed at an even position of the
    arguments (a key position), the map has at most one field per pair of
    arguments, and for no arguments it is empty. *)
Theorem parseKeysAndValues_fields (keysAndValues : list any) :
  (forall k,
     is_Some (parseKeysAndValues keysAndValues !! k) ->
     k = "INVALID_KEY"%string \/ exists i, keysAndValues !! (2 * i)%nat = Some (AString k))
  /\ (2 * size (parseKeysAndValues keysAndValues) <= length keysAndValues + 1)%nat
  /\ parseKeysAndValues [] = ∅.
Proof.
  split; [|split; [|reflexivity]].
  2:{ unfold parseKeysAndValues.
      pose proof (parse_pairs_size keysAndValues ∅) as He.
      pose proof (parse_pairs_size (keysAndValues ++ [AString "MISSING_VALUE"]) ∅) as Ho.
      rewrite List.length_app in Ho. simpl in Ho. rewrite map_size_empty in *.
      destruct (Nat.odd (length keysAndValues)); lia. }
  intros k Hk. unfold parseKeysAndValues in Hk.
  apply parse_pairs_keys in Hk as [Hk|[Hk|(i & Hi & Hlen)]].
  - rewrite lookup_empty in Hk. destruct Hk as [x Hx]. discriminate.
  - auto.
  - right. exists i. destruct (Nat.odd (length keysAndValues)) eqn:Hodd; [|exact Hi].
    rewrite List.length_app in Hlen. simpl in Hlen.
    rewrite lookup_app_l in Hi by lia. exact Hi.
Qed.

Lemma parseKeysAndValues_fields_witness :
  is_Some (parseKeysAndValues [AString "method"; AInt 1; AInt 2; AInt 3] !! "method"%string)
  /\ ("method"%string = "INVALID_KEY"%string
      \/ exists i,
           [AString "method"; AInt 1; AInt 2; AInt 3] !! (2 * i)%nat = Some (AString "method")).
Proof.
  assert (is_Some (parseKeysAndValues [AString "method"; AInt 1; AInt 2; AInt 3]
                   !! "method"%string)) as Hk.
  { exists (AInt 1). vm_compute. reflexivity. }
  split; [exact Hk|].
  exact (proj1 (parseKeysAndValues_fields [AString "method"; AInt 1; AInt 2; AInt 3]) _ Hk).
Defined.
